(** * streamlit.type_util: type-sniffing predicates

    A shallow embedding of [lib/streamlit/type_util.py] and the properties
    of its predicates.  The module inspects the runtime type of an object
    (its [__module__], [__name__], [__bases__] and, for named tuples, its
    [_fields] attribute) and the shape of lists and dicts; the embedding
    therefore models Python values together with their type objects,
    exceptions as an error monad, and the interpreter's import state for
    the one function that imports a library.  The embedding follows
    Python 3. *)

From Stdlib Require Import String Ascii List Bool ZArith PeanoNat Lia.
Import ListNotations.
Open Scope string_scope.
Open Scope list_scope.
Open Scope nat_scope.

(** ** Exceptions and the error monad *)

Inductive exn : Type :=
| AttributeError (attr : string)
| TypeError (msg : string)
| ImportError (name : string)
| OtherError (msg : string).

Inductive res (A : Type) : Type :=
| Ret (a : A)
| Raise (e : exn).

Arguments Ret {A} a.
Arguments Raise {A} e.

Definition bind {A B : Type} (m : res A) (k : A -> res B) : res B :=
  match m with
  | Ret a => k a
  | Raise e => Raise e
  end.

Declare Scope py_scope.
Delimit Scope py_scope with py.
Notation "x <- m ;; k" := (bind m (fun x => k))
  (at level 61, m at next level, right associativity) : py_scope.
Open Scope py_scope.

(** [a or b] on booleans: [b] is evaluated only when [a] is false. *)
Definition py_or (a b : res bool) : res bool :=
  x <- a ;; if x then Ret true else b.
Infix "|||" := py_or (at level 50, left associativity) : py_scope.

(** [all(f(x) for x in l)] and [any(f(x) for x in l)]: the generator is
    consumed from the left and the scan stops at the first deciding
    element, so an exception raised by a later element is never seen. *)
Fixpoint py_all {A : Type} (f : A -> res bool) (l : list A) : res bool :=
  match l with
  | [] => Ret true
  | x :: l' => b <- f x ;; if b then py_all f l' else Ret false
  end.

Fixpoint py_any {A : Type} (f : A -> res bool) (l : list A) : res bool :=
  match l with
  | [] => Ret false
  | x :: l' => b <- f x ;; if b then Ret true else py_any f l'
  end.

(** ** Python values and type objects *)

(** The built-in types the module meets by identity or by name. *)
Inductive builtin : Type :=
| BObject | BNoneType | BBool | BInt | BStr
| BList | BTuple | BDict | BFunction.

Definition builtin_eqb (a b : builtin) : bool :=
  match a, b with
  | BObject, BObject | BNoneType, BNoneType | BBool, BBool
  | BInt, BInt | BStr, BStr | BList, BList | BTuple, BTuple
  | BDict, BDict | BFunction, BFunction => true
  | _, _ => false
  end.

(** The value of a class's [__module__] attribute.  It is a string for
    ordinary classes, but it is an ordinary class attribute: a class body
    may bind it to [None], and a class created by [type(name, bases, ns)]
    from globals without [__name__] has none at all (absence is [None] of
    [option modval] in [cls_module] below). *)
Inductive modval : Type :=
| MVStr (s : string)
| MVNone.

(** A type object is a built-in type or a class; a class carries its
    identity, its [__module__], [__name__], [__bases__] and the further
    attributes that attribute lookup on the class finds.  An instance of a
    class carries the layout it inherits from its built-in base.  The
    classes are ordinary ones: their metaclass is [type] and their
    attributes are plain values, so that comparing two type objects, or
    reading an attribute of a class other than a missing one, runs no
    code of the class. *)
Local Unset Elimination Schemes.
Inductive pytype : Type :=
| TBuiltin (b : builtin)
| TClass (c : pyclass)
with pyclass : Type :=
| MkClass (id : positive) (module : option modval) (name : string)
          (bases : list pytype) (attrs : list (string * pyval))
with pyval : Type :=
| VNone
| VBool (b : bool)
| VInt (z : Z)
| VStr (s : string)
| VList (items : list pyval)
| VTuple (items : list pyval)
| VDict (items : list (pyval * pyval))
| VFunction (name : string)
| VInstance (c : pyclass) (lay : layout)
with layout : Type :=
| LObject
| LList (items : list pyval)
| LTuple (items : list pyval)
| LDict (items : list (pyval * pyval)).
Local Set Elimination Schemes.

Definition cls_id (c : pyclass) : positive :=
  let 'MkClass i _ _ _ _ := c in i.
Definition cls_module (c : pyclass) : option modval :=
  let 'MkClass _ m _ _ _ := c in m.
Definition cls_name (c : pyclass) : string :=
  let 'MkClass _ _ n _ _ := c in n.
Definition cls_bases (c : pyclass) : list pytype :=
  let 'MkClass _ _ _ b _ := c in b.
Definition cls_attrs (c : pyclass) : list (string * pyval) :=
  let 'MkClass _ _ _ _ a := c in a.

(** [type(obj)] *)
Definition type_of (obj : pyval) : pytype :=
  match obj with
  | VNone => TBuiltin BNoneType
  | VBool _ => TBuiltin BBool
  | VInt _ => TBuiltin BInt
  | VStr _ => TBuiltin BStr
  | VList _ => TBuiltin BList
  | VTuple _ => TBuiltin BTuple
  | VDict _ => TBuiltin BDict
  | VFunction _ => TBuiltin BFunction
  | VInstance c _ => TClass c
  end.

(** Identity of type objects ([is], and [==]/[!=] on types). *)
Definition type_is (t u : pytype) : bool :=
  match t, u with
  | TBuiltin a, TBuiltin b => builtin_eqb a b
  | TClass c, TClass d => Pos.eqb (cls_id c) (cls_id d)
  | _, _ => false
  end.

(** [t in ts] for a tuple of types. *)
Definition type_in (t : pytype) (ts : list pytype) : bool :=
  existsb (type_is t) ts.

Definition builtin_name (b : builtin) : string :=
  match b with
  | BObject => "object"
  | BNoneType => "NoneType"
  | BBool => "bool"
  | BInt => "int"
  | BStr => "str"
  | BList => "list"
  | BTuple => "tuple"
  | BDict => "dict"
  | BFunction => "function"
  end.

Definition builtin_bases (b : builtin) : list pytype :=
  match b with
  | BObject => []
  | BBool => [TBuiltin BInt]
  | _ => [TBuiltin BObject]
  end.

(** [t.__module__]: every built-in type lives in [builtins] (Python 2
    calls it [__builtin__]; no pattern of the module matches either); a
    class without the attribute raises [AttributeError]. *)
Definition get_module (t : pytype) : res modval :=
  match t with
  | TBuiltin _ => Ret (MVStr "builtins")
  | TClass c =>
      match cls_module c with
      | Some m => Ret m
      | None => Raise (AttributeError "__module__")
      end
  end.

(** [t.__name__] *)
Definition get_name (t : pytype) : string :=
  match t with
  | TBuiltin b => builtin_name b
  | TClass c => cls_name c
  end.

(** [t.__bases__] *)
Definition get_bases (t : pytype) : list pytype :=
  match t with
  | TBuiltin b => builtin_bases b
  | TClass c => cls_bases c
  end.

Fixpoint assoc_str {A : Type} (k : string) (l : list (string * A)) : option A :=
  match l with
  | [] => None
  | (k', v) :: l' => if String.eqb k k' then Some v else assoc_str k l'
  end.

(** [getattr(t, name, default)] on a type object, for the attributes that
    are not modelled as fields of the class; the built-in types have none
    of the names the module asks for. *)
Definition getattr_default (t : pytype) (name : string) (default : pyval) : pyval :=
  match t with
  | TBuiltin _ => default
  | TClass c =>
      match assoc_str name (cls_attrs c) with
      | Some v => v
      | None => default
      end
  end.

(** ["%s" % m] for the value of a [__module__] attribute. *)
Definition format_s (m : modval) : string :=
  match m with
  | MVStr s => s
  | MVNone => "None"
  end.

(** [m.startswith(p)]: [None] has no such method. *)
Definition startswith (m : modval) (p : string) : res bool :=
  match m with
  | MVStr s => Ret (String.prefix p s)
  | MVNone => Raise (AttributeError "startswith")
  end.

(** [len(obj)] *)
Definition py_len (obj : pyval) : res nat :=
  match obj with
  | VStr s => Ret (String.length s)
  | VList l | VTuple l => Ret (length l)
  | VDict d => Ret (length d)
  | VInstance _ (LList l) | VInstance _ (LTuple l) => Ret (length l)
  | VInstance _ (LDict d) => Ret (length d)
  | _ => Raise (TypeError "object has no len()")
  end.

(** The elements a [for] loop over [obj] yields. *)
Definition py_iter (obj : pyval) : res (list pyval) :=
  match obj with
  | VList l | VTuple l => Ret l
  | VDict d => Ret (map fst d)
  | VInstance _ (LList l) | VInstance _ (LTuple l) => Ret l
  | VInstance _ (LDict d) => Ret (map fst d)
  | VStr s => Ret (map (fun a => VStr (String a EmptyString)) (list_ascii_of_string s))
  | _ => Raise (TypeError "object is not iterable")
  end.

(** [obj.keys()] and [obj.values()], in the dict's iteration order. *)
Definition dict_keys (obj : pyval) : res (list pyval) :=
  match obj with
  | VDict d | VInstance _ (LDict d) => Ret (map fst d)
  | _ => Raise (AttributeError "keys")
  end.

Definition dict_values (obj : pyval) : res (list pyval) :=
  match obj with
  | VDict d | VInstance _ (LDict d) => Ret (map snd d)
  | _ => Raise (AttributeError "values")
  end.

(** [isinstance(obj, tuple)]: a tuple, or an instance of a class that
    inherits the tuple layout. *)
Definition isinstance_tuple (obj : pyval) : bool :=
  match obj with
  | VTuple _ | VInstance _ (LTuple _) => true
  | _ => false
  end.

(** [k == s] for a string literal [s]. *)
Definition py_eq_str (k : pyval) (s : string) : bool :=
  match k with
  | VStr s' => String.eqb s' s
  | _ => false
  end.

(** [k in l] for a list of string literals. *)
Definition py_in_strs (k : pyval) (l : list string) : bool :=
  existsb (py_eq_str k) l.

(** ** Regular expressions

    The fragment of [re] syntax that the module's two compiled patterns
    use: a sequence of items, each an anchor, one character from a set, or
    a starred or plussed set.  Strings are Python 3 [str] values whose
    code points lie below 256, one [ascii] per code point; the patterns
    are [str] patterns, so [\d] and [\w] are the Unicode-aware classes,
    here on the code points below 256. *)

Inductive charset : Type :=
| CLit (c : ascii)   (* a literal character, escaped or not *)
| CDot               (* [.]: anything but a newline *)
| CDigit             (* [\d] *)
| CWord.             (* [\w] *)

Inductive re_item : Type :=
| RBol                 (* [^] *)
| REol                 (* [$] *)
| ROne (c : charset)
| RStar (c : charset)
| RPlus (c : charset).

Definition regex : Type := list re_item.

Definition newline : ascii := ascii_of_nat 10.

(** [\d] in a [str] pattern: the decimal digits of Unicode (category Nd,
    [str.isdecimal]).  Below 256 these are U+0030 to U+0039 only; the
    superscript digits U+00B2, U+00B3, U+00B9 are not decimal. *)
Definition is_digit (a : ascii) : bool :=
  let n := nat_of_ascii a in (48 <=? n) && (n <=? 57).

(** The code points from 128 to 255 that [str.isalnum] accepts: the
    letters U+00AA, U+00B5, U+00BA, U+00C0 to U+00D6, U+00D8 to U+00F6 and
    U+00F8 to U+00FF (U+00D7 and U+00F7 are the multiplication and
    division signs), and the numeric characters U+00B2, U+00B3, U+00B9
    and U+00BC to U+00BE. *)
Definition is_alnum_latin1 (n : nat) : bool :=
  (n =? 170) || (n =? 178) || (n =? 179) || (n =? 181) || (n =? 185)
  || (n =? 186) || ((188 <=? n) && (n <=? 190))
  || ((192 <=? n) && (n <=? 214)) || ((216 <=? n) && (n <=? 246))
  || ((248 <=? n) && (n <=? 255)).

(** [\w] in a [str] pattern: the alphanumeric characters of Unicode
    ([str.isalnum]) and the underscore. *)
Definition is_word (a : ascii) : bool :=
  let n := nat_of_ascii a in
  is_digit a || ((65 <=? n) && (n <=? 90)) || ((97 <=? n) && (n <=? 122))
  || (n =? 95) || is_alnum_latin1 n.

Definition in_charset (c : charset) (a : ascii) : bool :=
  match c with
  | CLit b => Ascii.eqb a b
  | CDot => negb (Ascii.eqb a newline)
  | CDigit => is_digit a
  | CWord => is_word a
  end.

(** [$] without [re.MULTILINE]: at the end of the string, or just before
    a newline that ends it. *)
Definition at_eol (s : string) : bool :=
  match s with
  | EmptyString => true
  | String a EmptyString => Ascii.eqb a newline
  | _ => false
  end.

(** [c*] followed by the continuation [k]: some number of characters of
    [c] is consumed and [k] accepts the rest.  [start] tells whether the
    position is still the beginning of the string. *)
Fixpoint star_then (c : charset) (k : bool -> string -> bool)
         (start : bool) (s : string) : bool :=
  match s with
  | String a s' =>
      (in_charset c a && star_then c k false s') || k start s
  | EmptyString => k start s
  end.

(** Does the pattern match at the current position?  As with
    [pattern.match], the match need not reach the end of the string. *)
Fixpoint re_at (r : regex) (start : bool) (s : string) : bool :=
  match r with
  | [] => true
  | RBol :: r' => start && re_at r' start s
  | REol :: r' => at_eol s && re_at r' start s
  | ROne c :: r' =>
      match s with
      | String a s' => in_charset c a && re_at r' false s'
      | EmptyString => false
      end
  | RStar c :: r' => star_then c (re_at r') start s
  | RPlus c :: r' =>
      match s with
      | String a s' => in_charset c a && star_then c (re_at r') false s'
      | EmptyString => false
      end
  end.

(** [pattern.match(s) is not None] *)
Definition re_match (r : regex) (s : string) : bool := re_at r true s.

(** The items of a literal run of characters. *)
Definition lits (s : string) : regex :=
  map (fun a => ROne (CLit a)) (list_ascii_of_string s).

(** ** is_type *)

(** The second argument of [is_type]: a string, or a compiled regular
    expression ([isinstance(fqn_type_pattern, string_types)] tells them
    apart). *)
Inductive fqn_pattern : Type :=
| PatStr (s : string)
| PatRe (r : regex).

(** Lines 47-50 of [is_type]: ["%s.%s" % (module, name)]. *)
Definition actual_fqn (obj : pyval) : res string :=
  let the_type := type_of obj in
  module <- get_module the_type ;;
  let name := get_name the_type in
  Ret (format_s module ++ "." ++ name)%string.

Definition is_type (obj : pyval) (fqn_type_pattern : fqn_pattern) : res bool :=
  fqn <- actual_fqn obj ;;
  match fqn_type_pattern with
  | PatStr s => Ret (String.eqb s fqn)
  | PatRe r => Ret (re_match r fqn)
  end.

Definition _SYMPY_RE : regex :=
  [RBol] ++ lits "sympy" ++ [RStar CDot; REol].

Definition _ALTAIR_RE : regex :=
  [RBol] ++ lits "altair.vegalite.v" ++ [RPlus CDigit] ++ lits ".api."
  ++ [RStar CWord] ++ lits "Chart" ++ [REol].

(** ** The interpreter's import state

    [import sympy] is the module's only interaction with the interpreter.
    The state records whether [sympy] is already in [sys.modules] and what
    the import machinery produces when it is not: the module, or the
    exception the import raises.  Of the module only the check
    [isinstance(obj, sympy.Expr)] is used, which may itself raise. *)

Record sympy_module : Type := MkSympy {
  isinstance_Expr : pyval -> res bool
}.

Record interp : Type := MkInterp {
  sys_modules_sympy : option sympy_module;
  find_sympy : res sympy_module
}.

Definition import_sympy (w : interp) : res sympy_module * interp :=
  match sys_modules_sympy w with
  | Some m => (Ret m, w)
  | None =>
      match find_sympy w with
      | Ret m => (Ret m, MkInterp (Some m) (find_sympy w))
      | Raise e => (Raise e, w)
      end
  end.

(** ** The predicates *)

Definition is_sympy_expession (obj : pyval) (w : interp) : res pyval * interp :=
  match is_type obj (PatRe _SYMPY_RE) with
  | Raise e => (Raise e, w)
  | Ret false => (Ret (VBool false), w)              (* line 63 *)
  | Ret true =>
      let (imported, w') := import_sympy w in         (* line 66 *)
      match (sympy <- imported ;; isinstance_Expr sympy obj) with
      | Ret true => (Ret (VBool true), w')            (* line 69 *)
      | Ret false => (Ret VNone, w')                  (* the end of the body *)
      | Raise _ => (Ret (VBool false), w')            (* line 71 *)
      end
  end.

Definition is_altair_chart (obj : pyval) : res bool :=
  is_type obj (PatRe _ALTAIR_RE).

Definition is_keras_model (obj : pyval) : res bool :=
  is_type obj (PatStr "keras.engine.sequential.Sequential")
  ||| is_type obj (PatStr "keras.engine.training.Model")
  ||| is_type obj (PatStr "tensorflow.python.keras.engine.sequential.Sequential")
  ||| is_type obj (PatStr "tensorflow.python.keras.engine.training.Model").

Definition is_graphviz_chart (obj : pyval) : res bool :=
  is_type obj (PatStr "graphviz.dot.Graph")
  ||| is_type obj (PatStr "graphviz.dot.Digraph").

Definition _is_plotly_obj (obj : pyval) : res bool :=
  let the_type := type_of obj in
  module <- get_module the_type ;;
  startswith module "plotly.graph_objs".

Definition _is_list_of_plotly_objs (obj : pyval) : res bool :=
  if negb (type_is (type_of obj) (TBuiltin BList)) then Ret false else
  n <- py_len obj ;;
  if n =? 0 then Ret false else
  items <- py_iter obj ;;
  py_all _is_plotly_obj items.

(** Modelled from the spec: [dict_types] is put into the module's globals
    by [streamlit.compatibility.setup_2_3_shims], which is not part of the
    sources at hand.  The spec calls the objects this branch accepts
    mappings; the tuple is taken to hold the built-in dict type. *)
Definition dict_types : list pytype := [TBuiltin BDict].

Definition plotly_keys : list string := ["config"; "data"; "frames"; "layout"].

Definition _is_probably_plotly_dict (obj : pyval) : res bool :=
  if negb (type_in (type_of obj) dict_types) then Ret false else
  keys <- dict_keys obj ;;
  if length keys =? 0 then Ret false else
  if existsb (fun k => negb (py_in_strs k plotly_keys)) keys then Ret false else
  values <- dict_values obj ;;
  b <- py_any _is_plotly_obj values ;;
  if b then Ret true else
  b' <- py_any _is_list_of_plotly_objs values ;;
  if b' then Ret true else
  Ret false.

Definition is_plotly_chart (obj : pyval) : res bool :=
  is_type obj (PatStr "plotly.graph_objs._figure.Figure")
  ||| _is_list_of_plotly_objs obj
  ||| _is_probably_plotly_dict obj.

(** [type(lambda: 0)] *)
Definition _FUNCTION_TYPE : pytype := type_of (VFunction "<lambda>").

Definition is_function (x : pyval) : res bool :=
  Ret (type_is (type_of x) _FUNCTION_TYPE).

Definition is_namedtuple (x : pyval) : res bool :=
  let t := type_of x in
  let b := get_bases t in
  if negb (length b =? 1)
     || negb (match b with b0 :: _ => type_is b0 (TBuiltin BTuple) | [] => false end)
  then Ret false else
  let f := getattr_default t "_fields" VNone in
  if negb (isinstance_tuple f) then Ret false else
  items <- py_iter f ;;
  py_all (fun n => Ret (String.eqb (get_name (type_of n)) "str")) items.

(** The seven predicates the display layer calls, and a call of one of
    them in an interpreter state.  Only [is_sympy_expession] touches the
    state; the others compute from the object alone. *)
Inductive predicate : Type :=
| IsSympyExpression | IsAltairChart | IsKerasModel | IsPlotlyChart
| IsGraphvizChart | IsFunction | IsNamedTuple.

Definition as_value (r : res bool) : res pyval := b <- r ;; Ret (VBool b).

Definition call (p : predicate) (obj : pyval) (w : interp) : res pyval * interp :=
  match p with
  | IsSympyExpression => is_sympy_expession obj w
  | IsAltairChart => (as_value (is_altair_chart obj), w)
  | IsKerasModel => (as_value (is_keras_model obj), w)
  | IsPlotlyChart => (as_value (is_plotly_chart obj), w)
  | IsGraphvizChart => (as_value (is_graphviz_chart obj), w)
  | IsFunction => (as_value (is_function obj), w)
  | IsNamedTuple => (as_value (is_namedtuple obj), w)
  end.

(** ** Sample objects *)

Definition plain_class (id : positive) (module name : string) : pyclass :=
  MkClass id (Some (MVStr module)) name [TBuiltin BObject] [].

(** A plotly trace, [plotly.graph_objs.Scatter()]. *)
Definition scatter : pyval :=
  VInstance (plain_class 10 "plotly.graph_objs._scatter" "Scatter") LObject.

(** [sympy.Matrix([[1]])]: a sympy object that is not an expression. *)
Definition sympy_matrix : pyval :=
  VInstance (plain_class 11 "sympy.matrices.dense" "MutableDenseMatrix") LObject.

(** [sympy.Symbol("x")] *)
Definition sympy_symbol : pyval :=
  VInstance (plain_class 12 "sympy.core.symbol" "Symbol") LObject.

(** An instance of [class Odd: __module__ = None]. *)
Definition odd : pyval :=
  VInstance (MkClass 13 (Some MVNone) "Odd" [TBuiltin BObject] []) LObject.

(** An instance of the class made by [eval("type('Bare', (), {})", {})]:
    the calling globals have no [__name__], so the class gets no
    [__module__] at all. *)
Definition bare : pyval :=
  VInstance (MkClass 14 None "Bare" [TBuiltin BObject] []) LObject.

(** An empty instance of the list subclass made by
    [eval("type('BareList', (list,), {})", {})], which has no
    [__module__]. *)
Definition bare_list : pyval :=
  VInstance (MkClass 15 None "BareList" [TBuiltin BList] []) (LList []).

(** An instance of a class of a package whose name merely begins with
    [sympy] and which does not import sympy. *)
Definition lookalike : pyval :=
  VInstance (plain_class 16 "sympy_addon.shapes" "Shape") LObject.

(** A sympy whose [Expr] check knows the expression classes by name. *)
Definition sympy_lib : sympy_module :=
  MkSympy (fun obj =>
    Ret (match actual_fqn obj with
         | Ret fqn => String.eqb fqn "sympy.core.symbol.Symbol"
         | Raise _ => false
         end)).

(** sympy installed and already imported; installed but not yet imported;
    not installed. *)
Definition w_loaded : interp := MkInterp (Some sympy_lib) (Ret sympy_lib).
Definition w_fresh : interp := MkInterp None (Ret sympy_lib).
Definition w_absent : interp := MkInterp None (Raise (ImportError "sympy")).

(** A user's model class deriving from the Keras one:
    [class MyModel(keras.engine.training.Model)] in module [myapp.models]. *)
Definition keras_Model : pyclass :=
  plain_class 20 "keras.engine.training" "Model".
Definition my_model : pyval :=
  VInstance (MkClass 21 (Some (MVStr "myapp.models")) "MyModel"
                     [TClass keras_Model] []) LObject.

(** A list subclass, [class Traces(list)], and an instance holding one
    plotly trace. *)
Definition traces : pyval :=
  VInstance (MkClass 30 (Some (MVStr "myapp.charts")) "Traces" [TBuiltin BList] [])
            (LList [scatter]).

(** [collections.OrderedDict(config=Scatter())] *)
Definition ordered_dict : pyval :=
  VInstance (MkClass 31 (Some (MVStr "collections")) "OrderedDict"
                     [TBuiltin BDict] [])
            (LDict [(VStr "config", scatter)]).

(** A class that merely bears the name [str], and record types deriving
    from [tuple] with a given [_fields] attribute. *)
Definition fake_str : pyval :=
  VInstance (plain_class 40 "myapp.text" "str") LObject.

Definition point_class (id : positive) (fields : pyval) : pyclass :=
  MkClass id (Some (MVStr "myapp.geometry")) "Point" [TBuiltin BTuple]
          [("_fields", fields)].

Definition point (id : positive) (fields : pyval) : pyval :=
  VInstance (point_class id fields) (LTuple [VInt 1; VInt 2]).

(** A class deriving from a record type:
    [class Point3(Point): ...], with [_fields] inherited. *)
Definition point3 : pyval :=
  VInstance (MkClass 46 (Some (MVStr "myapp.geometry")) "Point3"
                     [TClass (point_class 45 (VTuple [VStr "x"; VStr "y"]))]
                     [("_fields", VTuple [VStr "x"; VStr "y"])])
            (LTuple [VInt 1; VInt 2]).

(** [class Pair(tuple): pass]: a tuple subclass without [_fields]. *)
Definition pair_class : pyclass :=
  MkClass 47 (Some (MVStr "myapp.geometry")) "Pair" [TBuiltin BTuple] [].

(** ** Vocabulary of the properties *)

(** The four names under which Keras models are known. *)
Definition keras_fqns : list string :=
  [ "keras.engine.sequential.Sequential";
    "keras.engine.training.Model";
    "tensorflow.python.keras.engine.sequential.Sequential";
    "tensorflow.python.keras.engine.training.Model" ].

(** The name of the plotly Figure type. *)
Definition FIGURE : string := "plotly.graph_objs._figure.Figure".

(** Sequences and mappings in the wide sense: lists, tuples and strings;
    dicts; and the instances of classes deriving from lists, tuples and
    dicts. *)
Definition sequence_items (obj : pyval) : option (list pyval) :=
  match obj with
  | VList l | VTuple l | VInstance _ (LList l) | VInstance _ (LTuple l) => Some l
  | VStr s => Some (map (fun a => VStr (String a EmptyString)) (list_ascii_of_string s))
  | _ => None
  end.

Definition mapping_items (obj : pyval) : option (list (pyval * pyval)) :=
  match obj with
  | VDict d | VInstance _ (LDict d) => Some d
  | _ => None
  end.

(** The elements of a tuple or of an instance of a tuple subclass. *)
Definition tuple_items (f : pyval) : option (list pyval) :=
  match f with
  | VTuple l | VInstance _ (LTuple l) => Some l
  | _ => None
  end.

(** The type of [n] is named [str]. *)
Definition named_str (n : pyval) : bool :=
  String.eqb (get_name (type_of n)) "str".

(** The type of [obj] has a [__module__] attribute ... *)
Definition has_module (obj : pyval) : bool :=
  match get_module (type_of obj) with
  | Ret _ => true
  | Raise _ => false
  end.

(** ... which is a string ... *)
Definition module_is_str (obj : pyval) : bool :=
  match get_module (type_of obj) with
  | Ret (MVStr _) => true
  | _ => false
  end.

(** ... that starts with [plotly.graph_objs]. *)
Definition is_plotly_ns (obj : pyval) : bool :=
  match get_module (type_of obj) with
  | Ret (MVStr s) => String.prefix "plotly.graph_objs" s
  | _ => false
  end.

(** A non-empty list whose elements are all plotly-namespaced. *)
Definition is_plotly_list (v : pyval) : bool :=
  match v with
  | VList l => negb (length l =? 0) && forallb is_plotly_ns l
  | _ => false
  end.

(** A value that makes a dict qualify. *)
Definition qualifies (v : pyval) : bool := is_plotly_ns v || is_plotly_list v.

(** The elements of a list; nothing for any other object. *)
Definition list_items (v : pyval) : list pyval :=
  match v with
  | VList l => l
  | _ => []
  end.

(** The objects whose type's [__module__] the plotly check may call
    [startswith] on: the elements of a list; the values of a dict and the
    elements of the values that are lists. *)
Definition inspected (obj : pyval) : list pyval :=
  match obj with
  | VList l => l
  | VDict d => map snd d ++ flat_map list_items (map snd d)
  | _ => []
  end.

(** The reflection a predicate performs succeeds: the name-based ones
    read [__module__] of the object's type; the plotly check also calls
    [startswith] on the [__module__] of the objects it inspects; the
    last two read nothing that can be missing. *)
Definition reflection_ok (p : predicate) (obj : pyval) : bool :=
  match p with
  | IsFunction | IsNamedTuple => true
  | IsPlotlyChart => has_module obj && forallb module_is_str (inspected obj)
  | _ => has_module obj
  end.

(** Every character of [s] satisfies [f]. *)
Fixpoint string_forall (f : ascii -> bool) (s : string) : bool :=
  match s with
  | EmptyString => true
  | String a s' => f a && string_forall f s'
  end.

(** The two names under which GraphViz charts are known. *)
Definition graphviz_fqns : list string :=
  [ "graphviz.dot.Graph"; "graphviz.dot.Digraph" ].

(** The predicates that begin by reading the fully-qualified name. *)
Definition reads_fqn (p : predicate) : bool :=
  match p with
  | IsFunction | IsNamedTuple => false
  | _ => true
  end.

(** The names for which a predicate can answer true: a necessary
    condition on the fully-qualified name of the object's type. *)
Definition family (p : predicate) (fqn : string) : bool :=
  match p with
  | IsSympyExpression => String.prefix "sympy" fqn
  | IsAltairChart => String.prefix "altair.vegalite.v" fqn
  | IsKerasModel => existsb (fun s => String.eqb s fqn) keras_fqns
  | IsPlotlyChart =>
      String.eqb FIGURE fqn || String.eqb "builtins.list" fqn
      || String.eqb "builtins.dict" fqn
  | IsGraphvizChart => existsb (fun s => String.eqb s fqn) graphviz_fqns
  | IsFunction => String.eqb "builtins.function" fqn
  | IsNamedTuple => true
  end.

(** ** Basic facts about the error monad and the scans *)

Lemma bind_ret_inv {A B : Type} (m : res A) (k : A -> res B) (b : B) :
  bind m k = Ret b -> exists a, m = Ret a /\ k a = Ret b.
Proof.
  destruct m as [a|e]; simpl; intros H; [eauto | discriminate].
Qed.

Lemma py_or_false_l (b : res bool) : (Ret false ||| b) = b.
Proof. reflexivity. Qed.

(** A scan whose test never raises is the boolean scan. *)
Lemma py_all_pure {A : Type} (f : A -> res bool) (g : A -> bool) (l : list A) :
  (forall x, In x l -> f x = Ret (g x)) -> py_all f l = Ret (forallb g l).
Proof.
  induction l as [|x l IH]; simpl; intros H; [reflexivity|].
  rewrite (H x (or_introl eq_refl)). simpl.
  destruct (g x); simpl; [apply IH; auto | reflexivity].
Qed.

Lemma py_any_pure {A : Type} (f : A -> res bool) (g : A -> bool) (l : list A) :
  (forall x, In x l -> f x = Ret (g x)) -> py_any f l = Ret (existsb g l).
Proof.
  induction l as [|x l IH]; simpl; intros H; [reflexivity|].
  rewrite (H x (or_introl eq_refl)). simpl.
  destruct (g x); simpl; [reflexivity | apply IH; auto].
Qed.

(** ** The fully-qualified name *)

Lemma actual_fqn_ret (obj : pyval) (fqn : string) :
  actual_fqn obj = Ret fqn <->
  exists m, get_module (type_of obj) = Ret m
            /\ fqn = (format_s m ++ "." ++ get_name (type_of obj))%string.
Proof.
  unfold actual_fqn. split.
  - intros H. apply bind_ret_inv in H. destruct H as [m [Hm Hk]].
    exists m. split; [exact Hm | congruence].
  - intros [m [Hm ->]]. rewrite Hm. reflexivity.
Qed.

Lemma is_type_str (obj : pyval) (p fqn : string) :
  actual_fqn obj = Ret fqn -> is_type obj (PatStr p) = Ret (String.eqb p fqn).
Proof. unfold is_type. intros ->. reflexivity. Qed.

Lemma is_type_re (obj : pyval) (r : regex) (fqn : string) :
  actual_fqn obj = Ret fqn -> is_type obj (PatRe r) = Ret (re_match r fqn).
Proof. unfold is_type. intros ->. reflexivity. Qed.

Lemma is_type_ret_inv (obj : pyval) (pat : fqn_pattern) (b : bool) :
  is_type obj pat = Ret b -> exists fqn, actual_fqn obj = Ret fqn.
Proof.
  unfold is_type. intros H. apply bind_ret_inv in H.
  destruct H as [fqn [H _]]. eauto.
Qed.

(** C3. For every object and every literal string pattern [p],
    [is_type obj p] returns true if and only if [p] is exactly the
    fully-qualified name of the object's type: the [__module__] of the
    type, a dot, and the [__name__] of the type.  The comparison is string
    equality, hence case-sensitive. *)
Theorem is_type_literal_exact (obj : pyval) (p : string) :
  is_type obj (PatStr p) = Ret true <->
  exists m, get_module (type_of obj) = Ret m
            /\ p = (format_s m ++ "." ++ get_name (type_of obj))%string.
Proof.
  split.
  - intros H. destruct (is_type_ret_inv obj _ _ H) as [fqn Hfqn].
    rewrite (is_type_str obj p fqn Hfqn) in H. injection H as H.
    apply String.eqb_eq in H. subst p.
    apply actual_fqn_ret. exact Hfqn.
  - intros Hm. apply actual_fqn_ret in Hm.
    rewrite (is_type_str obj p _ Hm). rewrite String.eqb_refl. reflexivity.
Qed.

Lemma is_type_literal_exact_witness :
  is_type scatter (PatStr "plotly.graph_objs._scatter.Scatter") = Ret true
  /\ is_type scatter (PatStr "plotly.graph_objs._scatter.scatter") <> Ret true.
Proof.
  split.
  - apply (proj2 (is_type_literal_exact scatter _)).
    exists (MVStr "plotly.graph_objs._scatter"). split; reflexivity.
  - intros H.
    apply (proj1 (is_type_literal_exact scatter _)) in H.
    destruct H as [m [Hm Hp]]. simpl in Hm. injection Hm as <-.
    discriminate Hp.
Defined.

(** ** The sympy check *)

(** A pattern that begins with a literal run only matches strings that
    begin with that run. *)
Lemma re_at_lits (p : string) (r : regex) :
  forall (start : bool) (s : string),
    re_at (lits p ++ r) start s = true -> exists t, s = (p ++ t)%string.
Proof.
  induction p as [|a p IH]; intros start s H.
  - exists s. reflexivity.
  - change (lits (String a p) ++ r) with (ROne (CLit a) :: (lits p ++ r)) in H.
    destruct s as [|b s]; simpl in H; [discriminate H|].
    apply andb_true_iff in H. destruct H as [Hab H].
    apply Ascii.eqb_eq in Hab. subst b.
    destruct (IH false s H) as [t ->]. exists t. reflexivity.
Qed.

Lemma prefix_app (p t : string) : String.prefix p (p ++ t) = true.
Proof.
  induction p as [|a p IH]; simpl.
  - destruct t; reflexivity.
  - destruct (ascii_dec a a) as [_|N]; [exact IH | now elim N].
Qed.

(** What [^sympy.*$] accepts begins with [sympy]. *)
Lemma sympy_re_prefix (s : string) :
  re_match _SYMPY_RE s = true -> String.prefix "sympy" s = true.
Proof.
  unfold re_match, _SYMPY_RE. intros H.
  change (re_at (lits "sympy" ++ [RStar CDot; REol]) true s = true) in H.
  destruct (re_at_lits _ _ _ _ H) as [t ->]. apply prefix_app.
Qed.

(** C4. An object whose fully-qualified name does not start with [sympy]
    is rejected by the prefilter: [is_sympy_expession] returns [False] and
    leaves the interpreter state as it was, whatever importing sympy would
    do in that state, so the import is not reached. *)
Theorem is_sympy_expession_prefilter (obj : pyval) (w : interp) (fqn : string) :
  actual_fqn obj = Ret fqn ->
  String.prefix "sympy" fqn = false ->
  is_sympy_expession obj w = (Ret (VBool false), w).
Proof.
  intros Hfqn Hpre. unfold is_sympy_expession.
  rewrite (is_type_re obj _SYMPY_RE fqn Hfqn).
  destruct (re_match _SYMPY_RE fqn) eqn:Hre; [|reflexivity].
  apply sympy_re_prefix in Hre. congruence.
Qed.

Lemma is_sympy_expession_prefilter_witness :
  is_sympy_expession scatter w_fresh = (Ret (VBool false), w_fresh)
  /\ is_sympy_expession (VInt 3) w_absent = (Ret (VBool false), w_absent).
Proof.
  split.
  - apply (is_sympy_expession_prefilter scatter w_fresh
             "plotly.graph_objs._scatter.Scatter"); reflexivity.
  - apply (is_sympy_expession_prefilter (VInt 3) w_absent "builtins.int");
      reflexivity.
Defined.

(** C1. When the prefilter passes, sympy is imported and the instance
    check completes and answers "not an expression", the body of
    [is_sympy_expession] runs off its end: the call returns [None], which
    is not a boolean. *)
Theorem is_sympy_expession_not_expr_returns_None
        (obj : pyval) (w : interp) (sympy : sympy_module) :
  is_type obj (PatRe _SYMPY_RE) = Ret true ->
  fst (import_sympy w) = Ret sympy ->
  isinstance_Expr sympy obj = Ret false ->
  fst (is_sympy_expession obj w) = Ret VNone
  /\ forall b, fst (is_sympy_expession obj w) <> Ret (VBool b).
Proof.
  intros Hpre Himp Hchk.
  assert (E : fst (is_sympy_expession obj w) = Ret VNone).
  { unfold is_sympy_expession. rewrite Hpre.
    destruct (import_sympy w) as [imported w']. simpl in Himp. subst imported.
    simpl. rewrite Hchk. reflexivity. }
  split; [exact E|]. intros b. rewrite E. discriminate.
Qed.

Lemma is_sympy_expession_not_expr_returns_None_witness :
  fst (is_sympy_expession sympy_matrix w_loaded) = Ret VNone
  /\ forall b, fst (is_sympy_expession sympy_matrix w_loaded) <> Ret (VBool b).
Proof.
  apply (is_sympy_expession_not_expr_returns_None sympy_matrix w_loaded sympy_lib);
    reflexivity.
Defined.

(** ** Exact-name predicates *)

Lemma py_or_ret (a b : bool) : (Ret a ||| Ret b) = Ret (a || b).
Proof. destruct a; reflexivity. Qed.

Lemma is_keras_model_fqn (obj : pyval) (fqn : string) :
  actual_fqn obj = Ret fqn ->
  is_keras_model obj = Ret (existsb (fun s => String.eqb s fqn) keras_fqns).
Proof.
  intros H. unfold is_keras_model.
  rewrite !(is_type_str obj _ fqn H), !py_or_ret. simpl.
  rewrite orb_false_r, !orb_assoc. reflexivity.
Qed.

Lemma existsb_eqb_In (fqn : string) (l : list string) :
  existsb (fun s => String.eqb s fqn) l = true <-> In fqn l.
Proof.
  rewrite existsb_exists. split.
  - intros [s [Hin Heq]]. apply String.eqb_eq in Heq. congruence.
  - intros Hin. exists fqn. split; [exact Hin | apply String.eqb_refl].
Qed.

(** C7. [is_keras_model] returns true exactly when the fully-qualified
    name of the object's type is one of the four Keras names, and it
    returns false for every object whose own name is another one, such as
    an instance of a subclass defined elsewhere: the bases of the type are
    never looked at. *)
Theorem is_keras_model_exact (obj : pyval) :
  (is_keras_model obj = Ret true <->
   exists fqn, actual_fqn obj = Ret fqn /\ In fqn keras_fqns)
  /\ (forall fqn, actual_fqn obj = Ret fqn -> ~ In fqn keras_fqns ->
      is_keras_model obj = Ret false).
Proof.
  split; [split|].
  - intros H. destruct (actual_fqn obj) as [fqn|e] eqn:E.
    + exists fqn. split; [reflexivity|].
      rewrite (is_keras_model_fqn obj fqn E) in H. injection H as H.
      apply existsb_eqb_In. exact H.
    + unfold is_keras_model, is_type in H. rewrite E in H. discriminate H.
  - intros [fqn [E Hin]]. rewrite (is_keras_model_fqn obj fqn E).
    f_equal. apply existsb_eqb_In. exact Hin.
  - intros fqn E Hnot. rewrite (is_keras_model_fqn obj fqn E). f_equal.
    destruct (existsb (fun s => String.eqb s fqn) keras_fqns) eqn:Ex;
      [|reflexivity].
    apply existsb_eqb_In in Ex. contradiction.
Qed.

Lemma is_keras_model_exact_witness :
  is_keras_model (VInstance keras_Model LObject) = Ret true
  /\ is_keras_model my_model = Ret false.
Proof.
  split.
  - apply (proj1 (is_keras_model_exact (VInstance keras_Model LObject))).
    exists "keras.engine.training.Model". split; [reflexivity|].
    simpl. auto.
  - apply (proj2 (is_keras_model_exact my_model) "myapp.models.MyModel");
      [reflexivity|].
    simpl. intros [H|[H|[H|[H|[]]]]]; discriminate H.
Defined.

(** ** The plotly check *)

Lemma _is_plotly_obj_str (v : pyval) :
  module_is_str v = true -> _is_plotly_obj v = Ret (is_plotly_ns v).
Proof.
  unfold module_is_str, _is_plotly_obj, is_plotly_ns.
  destruct (get_module (type_of v)) as [[s|]|e]; simpl; intros H;
    [reflexivity | discriminate H | discriminate H].
Qed.

Lemma type_is_list_inv (obj : pyval) :
  type_is (type_of obj) (TBuiltin BList) = true -> exists l, obj = VList l.
Proof.
  destruct obj; simpl; intros H; try discriminate H. eauto.
Qed.

Lemma type_in_dict_inv (obj : pyval) :
  type_in (type_of obj) dict_types = true -> exists d, obj = VDict d.
Proof.
  destruct obj; simpl; intros H; try discriminate H. eauto.
Qed.

Lemma list_branch_not_list (obj : pyval) :
  type_is (type_of obj) (TBuiltin BList) = false ->
  _is_list_of_plotly_objs obj = Ret false.
Proof. unfold _is_list_of_plotly_objs. intros ->. reflexivity. Qed.

Lemma dict_branch_not_dict (obj : pyval) :
  type_in (type_of obj) dict_types = false ->
  _is_probably_plotly_dict obj = Ret false.
Proof. unfold _is_probably_plotly_dict. intros ->. reflexivity. Qed.

Lemma is_plotly_chart_not_figure (obj : pyval) :
  is_type obj (PatStr FIGURE) = Ret false ->
  is_plotly_chart obj = (_is_list_of_plotly_objs obj ||| _is_probably_plotly_dict obj).
Proof.
  unfold is_plotly_chart, FIGURE. intros ->.
  rewrite py_or_false_l. reflexivity.
Qed.

(** C5, as stated, fails: an empty sequence that is not of the Figure
    type need not have a name that can be read.  For an empty instance of
    a list subclass without [__module__] the first test of
    [is_plotly_chart] raises. *)
Lemma plotly_empty_counterexample :
  sequence_items bare_list = Some []
  /\ actual_fqn bare_list <> Ret FIGURE
  /\ is_plotly_chart bare_list = Raise (AttributeError "__module__").
Proof. split; [reflexivity | split; [discriminate | reflexivity]]. Qed.

(** C5, amended.  Provided the fully-qualified name of the object's type
    can be read and is not the name of the plotly Figure type,
    [is_plotly_chart] returns false for every empty sequence, for every
    empty mapping, and for every mapping that has a key outside
    [config], [data], [frames], [layout], whatever its other keys hold. *)
Theorem is_plotly_chart_empty_or_foreign_key (obj : pyval) (fqn : string) :
  actual_fqn obj = Ret fqn ->
  fqn <> FIGURE ->
  (sequence_items obj = Some [] -> is_plotly_chart obj = Ret false)
  /\ (mapping_items obj = Some [] -> is_plotly_chart obj = Ret false)
  /\ (forall d k, mapping_items obj = Some d ->
                  In k (map fst d) -> py_in_strs k plotly_keys = false ->
                  is_plotly_chart obj = Ret false).
Proof.
  intros Hfqn Hne.
  assert (Hfig : is_type obj (PatStr FIGURE) = Ret false).
  { rewrite (is_type_str obj FIGURE fqn Hfqn). f_equal.
    apply String.eqb_neq. congruence. }
  rewrite (is_plotly_chart_not_figure obj Hfig).
  split; [|split].
  - intros Hseq.
    destruct obj as [| | | |l|l| | |c [|l|l|d]]; simpl in Hseq;
      try discriminate Hseq; try reflexivity.
    injection Hseq as ->. reflexivity.
  - intros Hmap.
    destruct obj as [| | | | | |d| |c [|l|l|d]]; simpl in Hmap;
      try discriminate Hmap; injection Hmap as ->; reflexivity.
  - intros d k Hmap Hin Hk.
    destruct obj as [| | | | | |d'| |c [|l|l|d']]; simpl in Hmap;
      try discriminate Hmap; injection Hmap as ->; [|reflexivity].
    rewrite (list_branch_not_list (VDict d) eq_refl), py_or_false_l.
    unfold _is_probably_plotly_dict.
    change (type_in (type_of (VDict d)) dict_types) with true.
    cbn [negb bind dict_keys].
    destruct (length (map fst d) =? 0); [reflexivity|].
    assert (E : existsb (fun k0 => negb (py_in_strs k0 plotly_keys)) (map fst d)
                = true).
    { apply existsb_exists. exists k. split; [exact Hin|]. rewrite Hk. reflexivity. }
    rewrite E. reflexivity.
Qed.

Lemma is_plotly_chart_empty_or_foreign_key_witness :
  is_plotly_chart (VList []) = Ret false
  /\ is_plotly_chart (VDict []) = Ret false
  /\ is_plotly_chart (VDict [(VStr "data", VList []); (VStr "unknownKey", VInt 1)])
     = Ret false
  /\ is_plotly_chart (VDict [(VStr "layout", scatter); (VInt 7, VList [scatter])])
     = Ret false.
Proof.
  assert (Hl : "builtins.list" <> FIGURE) by discriminate.
  assert (Hd : "builtins.dict" <> FIGURE) by discriminate.
  split; [|split; [|split]].
  - apply (proj1 (is_plotly_chart_empty_or_foreign_key
                    (VList []) "builtins.list" eq_refl Hl)).
    reflexivity.
  - apply (proj1 (proj2 (is_plotly_chart_empty_or_foreign_key
                           (VDict []) "builtins.dict" eq_refl Hd))).
    reflexivity.
  - apply (proj2 (proj2 (is_plotly_chart_empty_or_foreign_key
                           (VDict [(VStr "data", VList []);
                                   (VStr "unknownKey", VInt 1)])
                           "builtins.dict" eq_refl Hd))
             _ (VStr "unknownKey") eq_refl); [simpl; auto | reflexivity].
  - apply (proj2 (proj2 (is_plotly_chart_empty_or_foreign_key
                           (VDict [(VStr "layout", scatter);
                                   (VInt 7, VList [scatter])])
                           "builtins.dict" eq_refl Hd))
             _ (VInt 7) eq_refl); [simpl; auto | reflexivity].
Defined.

(** C9. The sequence branch looks at the elements only when the runtime
    type of the object is the built-in list itself.  For any other
    object, whatever its elements, the branch answers false; so
    [is_plotly_chart] returns false for every tuple, and for every
    sequence of another type (a list subclass instance among them) that
    is not of the Figure type. *)
Theorem list_branch_only_exact_list (obj : pyval) :
  type_is (type_of obj) (TBuiltin BList) = false ->
  _is_list_of_plotly_objs obj = Ret false
  /\ (forall items, obj = VTuple items -> is_plotly_chart obj = Ret false)
  /\ (forall items, sequence_items obj = Some items ->
                    is_type obj (PatStr FIGURE) = Ret false ->
                    is_plotly_chart obj = Ret false).
Proof.
  intros Hty. split; [|split].
  - apply list_branch_not_list. exact Hty.
  - intros items ->. reflexivity.
  - intros items Hseq Hfig.
    rewrite (is_plotly_chart_not_figure obj Hfig).
    rewrite (list_branch_not_list obj Hty), py_or_false_l.
    apply dict_branch_not_dict.
    destruct obj as [| | | |l|l| | |c [|l|l|d]]; simpl in Hseq;
      try discriminate Hseq; reflexivity.
Qed.

Lemma list_branch_only_exact_list_witness :
  forallb is_plotly_ns [scatter; scatter] = true
  /\ _is_list_of_plotly_objs (VTuple [scatter; scatter]) = Ret false
  /\ is_plotly_chart (VTuple [scatter; scatter]) = Ret false
  /\ is_plotly_chart traces = Ret false
  /\ is_plotly_chart (VList [scatter; scatter]) = Ret true.
Proof.
  split; [reflexivity|]. split; [|split; [|split]].
  - apply (proj1 (list_branch_only_exact_list (VTuple [scatter; scatter]) eq_refl)).
  - apply (proj1 (proj2 (list_branch_only_exact_list (VTuple [scatter; scatter])
                           eq_refl)) [scatter; scatter] eq_refl).
  - apply (proj2 (proj2 (list_branch_only_exact_list traces eq_refl))
             [scatter] eq_refl eq_refl).
  - reflexivity.
Defined.

(** *** The dict branch *)

Lemma all_plotly_objs_str (l : list pyval) :
  forallb module_is_str l = true ->
  py_all _is_plotly_obj l = Ret (forallb is_plotly_ns l).
Proof.
  intros H. apply py_all_pure. intros x Hx.
  apply _is_plotly_obj_str. rewrite forallb_forall in H. auto.
Qed.

Lemma any_plotly_objs_str (l : list pyval) :
  forallb module_is_str l = true ->
  py_any _is_plotly_obj l = Ret (existsb is_plotly_ns l).
Proof.
  intros H. apply py_any_pure. intros x Hx.
  apply _is_plotly_obj_str. rewrite forallb_forall in H. auto.
Qed.

Lemma list_branch_str (v : pyval) :
  forallb module_is_str (list_items v) = true ->
  _is_list_of_plotly_objs v = Ret (is_plotly_list v).
Proof.
  intros H. destruct (type_is (type_of v) (TBuiltin BList)) eqn:Hty.
  - destruct (type_is_list_inv v Hty) as [l ->]. simpl in H.
    unfold _is_list_of_plotly_objs. simpl.
    destruct (length l =? 0); [reflexivity|]. simpl.
    apply all_plotly_objs_str. exact H.
  - rewrite (list_branch_not_list v Hty).
    destruct v; try reflexivity. simpl in Hty. discriminate Hty.
Qed.

Lemma forallb_flat_map (f : pyval -> bool) (g : pyval -> list pyval)
      (l : list pyval) (v : pyval) :
  forallb f (flat_map g l) = true -> In v l -> forallb f (g v) = true.
Proof.
  intros H Hv. rewrite forallb_forall in *. intros x Hx.
  apply H. apply in_flat_map. eauto.
Qed.

Lemma existsb_orb (f g : pyval -> bool) (l : list pyval) :
  existsb (fun v => f v || g v) l = existsb f l || existsb g l.
Proof.
  induction l as [|x l IH]; simpl; [reflexivity|]. rewrite IH.
  destruct (f x), (g x), (existsb f l); reflexivity.
Qed.

Lemma existsb_negb {A : Type} (f : A -> bool) (l : list A) :
  existsb (fun x => negb (f x)) l = negb (forallb f l).
Proof.
  induction l as [|x l IH]; cbn [existsb forallb]; [reflexivity|].
  rewrite IH. destruct (f x); reflexivity.
Qed.

(** The dict branch on a dict whose inspected objects all have a string
    [__module__]: it computes the condition on keys and values. *)
Lemma dict_branch_str (d : list (pyval * pyval)) :
  forallb module_is_str (inspected (VDict d)) = true ->
  _is_probably_plotly_dict (VDict d)
  = Ret (negb (length d =? 0)
         && forallb (fun k => py_in_strs k plotly_keys) (map fst d)
         && existsb qualifies (map snd d)).
Proof.
  intros H. simpl in H. rewrite forallb_app in H.
  apply andb_true_iff in H. destruct H as [Hv Hl].
  unfold _is_probably_plotly_dict.
  change (type_in (type_of (VDict d)) dict_types) with true.
  cbn [negb bind dict_keys dict_values].
  rewrite length_map.
  destruct (length d =? 0); [reflexivity|].
  rewrite existsb_negb.
  destruct (forallb (fun k => py_in_strs k plotly_keys) (map fst d));
    [|reflexivity].
  cbn [negb andb].
  rewrite (any_plotly_objs_str _ Hv). cbn [bind].
  unfold qualifies. rewrite existsb_orb.
  destruct (existsb is_plotly_ns (map snd d)); [reflexivity|].
  rewrite (py_any_pure _is_list_of_plotly_objs is_plotly_list).
  - cbn [bind orb]. destruct (existsb is_plotly_list (map snd d)); reflexivity.
  - intros v Hin. apply list_branch_str.
    apply (forallb_flat_map _ _ _ v Hl Hin).
Qed.

(** C6, as stated, fails in two ways.  A mapping that is not of the
    built-in dict type is rejected by the type test of the dict branch;
    and in a dict, a value whose type has a [__module__] that is not a
    string makes [startswith] raise before the qualifying value is
    reached. *)
Lemma plotly_dict_counterexample :
  (mapping_items ordered_dict = Some [(VStr "config", scatter)]
   /\ is_plotly_ns scatter = true
   /\ is_plotly_chart ordered_dict = Ret false)
  /\ (forallb (fun k => py_in_strs k plotly_keys) [VStr "config"; VStr "data"] = true
      /\ is_plotly_ns scatter = true
      /\ is_plotly_chart (VDict [(VStr "config", odd); (VStr "data", scatter)])
         = Raise (AttributeError "startswith")).
Proof. repeat split. Qed.

(** C6, amended.  For every non-empty dict (an object whose type is the
    built-in dict itself) whose keys all lie in [config], [data],
    [frames], [layout], whose values, and the elements of whose list
    values, all have types with a string [__module__], and one of whose
    values is plotly-namespaced or is a non-empty list of plotly-namespaced
    elements, [is_plotly_chart] returns true. *)
Theorem is_plotly_chart_dict_accepts (d : list (pyval * pyval)) :
  d <> [] ->
  forallb (fun k => py_in_strs k plotly_keys) (map fst d) = true ->
  forallb module_is_str (inspected (VDict d)) = true ->
  existsb qualifies (map snd d) = true ->
  is_plotly_chart (VDict d) = Ret true.
Proof.
  intros Hne Hkeys Hstr Hq.
  rewrite (is_plotly_chart_not_figure (VDict d) eq_refl).
  rewrite (list_branch_not_list (VDict d) eq_refl), py_or_false_l.
  rewrite (dict_branch_str d Hstr), Hkeys, Hq.
  destruct d; [contradiction Hne; reflexivity | reflexivity].
Qed.

Lemma is_plotly_chart_dict_accepts_witness :
  is_plotly_chart (VDict [(VStr "config", scatter)]) = Ret true
  /\ is_plotly_chart (VDict [(VStr "layout", VInt 1);
                             (VStr "data", VList [scatter; scatter])]) = Ret true.
Proof.
  split.
  - apply (is_plotly_chart_dict_accepts [(VStr "config", scatter)]);
      [discriminate | reflexivity | reflexivity | reflexivity].
  - apply (is_plotly_chart_dict_accepts
             [(VStr "layout", VInt 1); (VStr "data", VList [scatter; scatter])]);
      [discriminate | reflexivity | reflexivity | reflexivity].
Defined.

(** ** Named tuples *)

Lemma tuple_items_iter (f : pyval) (items : list pyval) :
  tuple_items f = Some items ->
  isinstance_tuple f = true /\ py_iter f = Ret items.
Proof.
  destruct f as [| | | | |l| | |c [|l|l|d]]; simpl; intros H;
    try discriminate H; injection H as ->; split; reflexivity.
Qed.

Lemma isinstance_tuple_items (f : pyval) :
  isinstance_tuple f = true -> exists items, tuple_items f = Some items.
Proof.
  destruct f as [| | | | |l| | |c [|l|l|d]]; simpl; intros H;
    try discriminate H; eauto.
Qed.

(** C10. Let the type of [x] have the single direct base [tuple] and a
    [_fields] attribute [f].  If [f] is a tuple, [is_namedtuple x] is true
    exactly when the type of every element of [f] is named [str], whatever
    type bears that name; if [f] is not a tuple (a list of names, say),
    [is_namedtuple x] is false. *)
Theorem is_namedtuple_fields (x : pyval) (c : pyclass) (f : pyval) :
  type_of x = TClass c ->
  cls_bases c = [TBuiltin BTuple] ->
  assoc_str "_fields" (cls_attrs c) = Some f ->
  (forall items, tuple_items f = Some items ->
                 is_namedtuple x = Ret (forallb named_str items))
  /\ (isinstance_tuple f = false -> is_namedtuple x = Ret false).
Proof.
  intros Hty Hbases Hf.
  assert (E : is_namedtuple x
              = if negb (isinstance_tuple f) then Ret false
                else (items <- py_iter f ;;
                      py_all (fun n => Ret (named_str n)) items)).
  { unfold is_namedtuple, getattr_default. rewrite Hty. simpl.
    rewrite Hbases, Hf. reflexivity. }
  rewrite E. split.
  - intros items Hitems. destruct (tuple_items_iter f items Hitems) as [-> ->].
    simpl. apply py_all_pure. reflexivity.
  - intros ->. reflexivity.
Qed.

Lemma is_namedtuple_fields_witness :
  is_namedtuple (point 41 (VTuple [VStr "x"; VStr "y"])) = Ret true
  /\ is_namedtuple (point 42 (VTuple [fake_str; VStr "y"])) = Ret true
  /\ is_namedtuple (point 43 (VTuple [VStr "x"; VInt 0])) = Ret false
  /\ is_namedtuple (point 44 (VList [VStr "x"; VStr "y"])) = Ret false.
Proof.
  split; [|split; [|split]].
  - apply (proj1 (is_namedtuple_fields
                    (point 41 (VTuple [VStr "x"; VStr "y"])) _ _
                    eq_refl eq_refl eq_refl) [VStr "x"; VStr "y"] eq_refl).
  - apply (proj1 (is_namedtuple_fields
                    (point 42 (VTuple [fake_str; VStr "y"])) _ _
                    eq_refl eq_refl eq_refl) [fake_str; VStr "y"] eq_refl).
  - apply (proj1 (is_namedtuple_fields
                    (point 43 (VTuple [VStr "x"; VInt 0])) _ _
                    eq_refl eq_refl eq_refl) [VStr "x"; VInt 0] eq_refl).
  - apply (proj2 (is_namedtuple_fields
                    (point 44 (VList [VStr "x"; VStr "y"])) _ _
                    eq_refl eq_refl eq_refl) eq_refl).
Defined.

Lemma is_namedtuple_returns (x : pyval) : exists b, is_namedtuple x = Ret b.
Proof.
  unfold is_namedtuple.
  destruct (negb (length (get_bases (type_of x)) =? 1)
            || negb match get_bases (type_of x) with
                    | [] => false
                    | b0 :: _ => type_is b0 (TBuiltin BTuple)
                    end); [eexists; reflexivity|].
  destruct (isinstance_tuple (getattr_default (type_of x) "_fields" VNone))
    eqn:Hf; [|eexists; reflexivity].
  destruct (isinstance_tuple_items _ Hf) as [items Hitems].
  destruct (tuple_items_iter _ items Hitems) as [_ ->]. cbn [negb bind].
  rewrite (py_all_pure (fun n => Ret (String.eqb (get_name (type_of n)) "str"))
                       named_str items (fun _ _ => eq_refl)).
  eexists; reflexivity.
Qed.

(** ** Which calls return *)

Lemma has_module_fqn (obj : pyval) :
  has_module obj = true -> exists fqn, actual_fqn obj = Ret fqn.
Proof.
  unfold has_module, actual_fqn.
  destruct (get_module (type_of obj)) as [m|e]; intros H;
    [simpl; eauto | discriminate H].
Qed.

Lemma is_plotly_chart_returns (obj : pyval) :
  has_module obj = true ->
  forallb module_is_str (inspected obj) = true ->
  exists b, is_plotly_chart obj = Ret b.
Proof.
  intros Hm Hins. destruct (has_module_fqn obj Hm) as [fqn Hfqn].
  unfold is_plotly_chart. rewrite (is_type_str obj _ fqn Hfqn).
  assert (Hl : exists b, _is_list_of_plotly_objs obj = Ret b).
  { exists (is_plotly_list obj). apply list_branch_str.
    destruct obj; try reflexivity. exact Hins. }
  assert (Hd : exists b, _is_probably_plotly_dict obj = Ret b).
  { destruct (type_in (type_of obj) dict_types) eqn:Hty.
    - destruct (type_in_dict_inv obj Hty) as [d ->].
      rewrite (dict_branch_str d Hins). eauto.
    - rewrite (dict_branch_not_dict obj Hty). eauto. }
  destruct Hl as [bl ->]. destruct Hd as [bd ->].
  rewrite !py_or_ret. eauto.
Qed.

Lemma is_sympy_expession_returns (obj : pyval) (w : interp) :
  has_module obj = true ->
  exists v, fst (is_sympy_expession obj w) = Ret v
            /\ (v = VNone \/ exists b, v = VBool b).
Proof.
  intros Hm. destruct (has_module_fqn obj Hm) as [fqn Hfqn].
  unfold is_sympy_expession. rewrite (is_type_re obj _ fqn Hfqn).
  destruct (re_match _SYMPY_RE fqn); [|simpl; eauto].
  destruct (import_sympy w) as [[sympy|e] w']; simpl; [|eauto].
  destruct (isinstance_Expr sympy obj) as [[|]|e]; simpl; eauto.
Qed.


(** ** Calling twice *)

Lemma import_sympy_again (w : interp) :
  import_sympy (snd (import_sympy w)) = (fst (import_sympy w), snd (import_sympy w)).
Proof.
  unfold import_sympy.
  destruct (sys_modules_sympy w) as [m|] eqn:Hc; simpl.
  - rewrite Hc. reflexivity.
  - destruct (find_sympy w) as [m|e] eqn:Hf; simpl.
    + reflexivity.
    + rewrite Hc, Hf. reflexivity.
Qed.

Lemma is_sympy_expession_again (obj : pyval) (w : interp) :
  is_sympy_expession obj (snd (is_sympy_expession obj w))
  = is_sympy_expession obj w.
Proof.
  unfold is_sympy_expession.
  destruct (is_type obj (PatRe _SYMPY_RE)) as [[|]|e]; simpl; try reflexivity.
  pose proof (import_sympy_again w) as Hagain.
  destruct (import_sympy w) as [imported w'] eqn:Himp. simpl in Hagain.
  assert (Hsnd : snd (match (sympy <- imported ;; isinstance_Expr sympy obj) with
                      | Ret true => (Ret (VBool true), w')
                      | Ret false => (Ret VNone, w')
                      | Raise _ => (Ret (VBool false), w')
                      end) = w').
  { destruct (sympy <- imported ;; isinstance_Expr sympy obj) as [[|]|e];
      reflexivity. }
  rewrite Hsnd, Hagain. reflexivity.
Qed.




(** ** The language of the two patterns *)

(** A literal run is matched by that run, and the rest of the pattern
    goes on after it. *)
Lemma re_at_lits_iff (p : string) (r : regex) :
  forall (start : bool) (s : string),
    re_at (lits p ++ r) start s = true <->
    exists t, s = (p ++ t)%string
              /\ re_at r (match p with EmptyString => start | _ => false end) t
                 = true.
Proof.
  induction p as [|a p IH]; intros start s.
  - simpl. split; [intros H; exists s; auto | intros [t [-> H]]; exact H].
  - change (lits (String a p) ++ r) with (ROne (CLit a) :: (lits p ++ r)).
    destruct s as [|b s]; cbn [re_at in_charset].
    + split; [intros H; discriminate H | intros [t [H _]]; discriminate H].
    + rewrite andb_true_iff, Ascii.eqb_eq, IH. split.
      * intros [-> [t [-> H]]]. exists t. split; [reflexivity|].
        destruct p; exact H.
      * intros [t [Heq H]]. simpl in Heq. injection Heq as -> ->.
        split; [reflexivity|]. exists t. split; [reflexivity|].
        destruct p; exact H.
Qed.

(** A starred set that does not stand at the start of the string takes
    a run of characters of the set, and the rest of the pattern goes on
    after the run. *)
Lemma star_then_iff (c : charset) (k : bool -> string -> bool) (s : string) :
  star_then c k false s = true <->
  exists pre post, s = (pre ++ post)%string
                   /\ string_forall (in_charset c) pre = true
                   /\ k false post = true.
Proof.
  induction s as [|a s IH]; cbn [star_then].
  - split.
    + intros H. exists EmptyString, EmptyString. auto.
    + intros [pre [post [Heq [_ H]]]].
      destruct pre; [simpl in Heq; subst post; exact H | discriminate Heq].
  - rewrite orb_true_iff, andb_true_iff, IH. split.
    + intros [[Ha [pre [post [-> [Hpre H]]]]] | H].
      * exists (String a pre), post. simpl. rewrite Ha, Hpre. auto.
      * exists EmptyString, (String a s). auto.
    + intros [pre [post [Heq [Hpre H]]]]. destruct pre as [|b pre].
      * simpl in Heq. subst post. right. exact H.
      * simpl in Heq. injection Heq as -> ->. simpl in Hpre.
        apply andb_true_iff in Hpre. destruct Hpre as [Hb Hpre].
        left. split; [exact Hb|]. exists pre, post. auto.
Qed.

Lemma at_eol_iff (s : string) :
  at_eol s = true <-> s = EmptyString \/ s = String newline EmptyString.
Proof.
  destruct s as [|a [|b s]]; simpl.
  - intuition.
  - rewrite Ascii.eqb_eq. split.
    + intros ->. auto.
    + intros [H|H]; [discriminate H | injection H as ->; reflexivity].
  - split; [intros H; discriminate H | intros [H|H]; discriminate H].
Qed.

(** [^sympy.*$] accepts [sympy], then characters other than a newline,
    then the end of the string or one last newline. *)
Lemma sympy_re_iff (s : string) :
  re_match _SYMPY_RE s = true <->
  exists t nl, s = ("sympy" ++ t ++ nl)%string
               /\ string_forall (in_charset CDot) t = true
               /\ at_eol nl = true.
Proof.
  unfold re_match.
  change (re_at _SYMPY_RE true s)
    with (true && re_at (lits "sympy" ++ [RStar CDot; REol]) true s).
  rewrite andb_true_l, re_at_lits_iff. split.
  - intros [t [-> H]]. cbn [re_at] in H. apply star_then_iff in H.
    destruct H as [pre [post [-> [Hpre H]]]]. cbn [re_at] in H.
    rewrite andb_true_r in H. exists pre, post. auto.
  - intros [t [nl [-> [Ht Hnl]]]]. exists (t ++ nl)%string.
    split; [reflexivity|]. cbn [re_at]. apply star_then_iff.
    exists t, nl. cbn [re_at]. rewrite Hnl. auto.
Qed.

(** [^altair\.vegalite\.v\d+\.api\.\w*Chart$] accepts a version made of
    one digit or more, and a chart name made of word characters before
    [Chart]. *)
Lemma altair_re_iff (s : string) :
  re_match _ALTAIR_RE s = true <->
  exists ds ws nl,
    s = ("altair.vegalite.v" ++ ds ++ ".api." ++ ws ++ "Chart" ++ nl)%string
    /\ ds <> EmptyString
    /\ string_forall is_digit ds = true
    /\ string_forall is_word ws = true
    /\ at_eol nl = true.
Proof.
  unfold re_match.
  change (re_at _ALTAIR_RE true s)
    with (true && re_at (lits "altair.vegalite.v"
                         ++ (RPlus CDigit
                             :: (lits ".api."
                                 ++ (RStar CWord :: (lits "Chart" ++ [REol])))))
                        true s).
  rewrite andb_true_l, re_at_lits_iff. split.
  - intros [t1 [-> H]]. cbn [re_at] in H.
    destruct t1 as [|a t1]; [discriminate H|].
    apply andb_true_iff in H. destruct H as [Ha H].
    apply star_then_iff in H. destruct H as [ds [t2 [-> [Hds H]]]].
    apply re_at_lits_iff in H. destruct H as [t3 [-> H]].
    cbn [re_at] in H. apply star_then_iff in H.
    destruct H as [ws [t4 [-> [Hws H]]]].
    apply re_at_lits_iff in H. destruct H as [nl [-> H]].
    cbn [re_at] in H. rewrite andb_true_r in H.
    exists (String a ds), ws, nl.
    split; [reflexivity|]. split; [discriminate|].
    split; [simpl; simpl in Ha; rewrite Ha; exact Hds|]. auto.
  - intros [ds [ws [nl [-> [Hne [Hds [Hws Hnl]]]]]]].
    exists (ds ++ ".api." ++ ws ++ "Chart" ++ nl)%string.
    split; [reflexivity|]. cbn [re_at].
    destruct ds as [|a ds]; [contradiction Hne; reflexivity|].
    simpl in Hds. apply andb_true_iff in Hds. destruct Hds as [Ha Hds].
    change ((String a ds ++ ".api." ++ ws ++ "Chart" ++ nl)%string)
      with (String a (ds ++ ".api." ++ ws ++ "Chart" ++ nl)%string).
    cbn [in_charset]. rewrite Ha, andb_true_l.
    apply star_then_iff. exists ds, (".api." ++ ws ++ "Chart" ++ nl)%string.
    split; [reflexivity|]. split; [exact Hds|].
    apply re_at_lits_iff. exists (ws ++ "Chart" ++ nl)%string.
    split; [reflexivity|]. cbn [re_at].
    apply star_then_iff. exists ws, ("Chart" ++ nl)%string.
    split; [reflexivity|]. split; [exact Hws|].
    apply re_at_lits_iff. exists nl. split; [reflexivity|].
    cbn [re_at]. rewrite Hnl. reflexivity.
Qed.

(** ** Further properties of the name-based predicates *)

Lemma is_type_re_true (obj : pyval) (r : regex) :
  is_type obj (PatRe r) = Ret true <->
  exists fqn, actual_fqn obj = Ret fqn /\ re_match r fqn = true.
Proof.
  split.
  - intros H. destruct (is_type_ret_inv obj _ _ H) as [fqn Hfqn].
    rewrite (is_type_re obj r fqn Hfqn) in H. injection H as H. eauto.
  - intros [fqn [Hfqn H]]. rewrite (is_type_re obj r fqn Hfqn), H. reflexivity.
Qed.

(** X1. [is_altair_chart] answers true exactly for the names
    [altair.vegalite.v<digits>.api.<word characters>Chart] with at least
    one digit, the name possibly followed by one newline.  Digits and
    word characters are those of [\d] and [\w] in a [str] pattern, so a
    chart name may hold letters beyond ASCII. *)
Theorem is_altair_chart_names (obj : pyval) :
  is_altair_chart obj = Ret true <->
  exists fqn ds ws nl,
    actual_fqn obj = Ret fqn
    /\ fqn = ("altair.vegalite.v" ++ ds ++ ".api." ++ ws ++ "Chart" ++ nl)%string
    /\ ds <> EmptyString
    /\ string_forall is_digit ds = true
    /\ string_forall is_word ws = true
    /\ (nl = EmptyString \/ nl = String newline EmptyString).
Proof.
  unfold is_altair_chart. rewrite is_type_re_true. split.
  - intros [fqn [Hfqn H]]. apply altair_re_iff in H.
    destruct H as [ds [ws [nl [-> [Hne [Hds [Hws Hnl]]]]]]].
    apply at_eol_iff in Hnl. eexists; exists ds, ws, nl.
    repeat (split; [eassumption || reflexivity|]). exact Hnl.
  - intros [fqn [ds [ws [nl [Hfqn [-> [Hne [Hds [Hws Hnl]]]]]]]]].
    eexists. split; [exact Hfqn|]. apply altair_re_iff.
    apply at_eol_iff in Hnl. exists ds, ws, nl. auto.
Qed.

Lemma is_altair_chart_names_witness :
  is_altair_chart
    (VInstance (plain_class 50 "altair.vegalite.v3.api" "LayerChart") LObject)
  = Ret true
  /\ is_altair_chart
       (VInstance (plain_class 54 "altair.vegalite.v3.api"
                               (String (ascii_of_nat 201) "Chart")) LObject)
     = Ret true.
Proof.
  split.
  - apply (proj2 (is_altair_chart_names _)).
    exists "altair.vegalite.v3.api.LayerChart", "3", "Layer", "".
    repeat split; auto. discriminate.
  - apply (proj2 (is_altair_chart_names _)).
    exists ("altair.vegalite.v3.api." ++ String (ascii_of_nat 201) "Chart")%string,
           "3", (String (ascii_of_nat 201) ""), "".
    repeat split; auto. discriminate.
Defined.

(** X2. The prefilter of [is_sympy_expession] is a test on the text of
    the name: it passes exactly when the name is [sympy] followed by any
    characters other than a newline (one last newline apart).  Nothing
    asks for a dot after [sympy], so types of any module whose name
    merely begins with [sympy] pass. *)
Theorem sympy_prefilter_names (obj : pyval) :
  is_type obj (PatRe _SYMPY_RE) = Ret true <->
  exists fqn t nl,
    actual_fqn obj = Ret fqn
    /\ fqn = ("sympy" ++ t ++ nl)%string
    /\ string_forall (fun a => negb (Ascii.eqb a newline)) t = true
    /\ (nl = EmptyString \/ nl = String newline EmptyString).
Proof.
  rewrite is_type_re_true. split.
  - intros [fqn [Hfqn H]]. apply sympy_re_iff in H.
    destruct H as [t [nl [-> [Ht Hnl]]]]. apply at_eol_iff in Hnl.
    eexists; exists t, nl.
    repeat (split; [eassumption || reflexivity|]). exact Hnl.
  - intros [fqn [t [nl [Hfqn [-> [Ht Hnl]]]]]].
    eexists. split; [exact Hfqn|]. apply sympy_re_iff.
    apply at_eol_iff in Hnl. exists t, nl. auto.
Qed.

Lemma sympy_prefilter_names_witness :
  is_type (VInstance (plain_class 51 "sympybotics.robot" "Robot") LObject)
          (PatRe _SYMPY_RE) = Ret true.
Proof.
  apply (proj2 (sympy_prefilter_names _)).
  exists "sympybotics.robot.Robot", "botics.robot.Robot", "".
  repeat split; auto.
Defined.

(** X3. [is_sympy_expession] returns [True] exactly when the prefilter
    passes, sympy is imported (or already was) and its instance check
    answers [True]; sympy is then in [sys.modules] after the call. *)
Theorem is_sympy_expession_true_iff (obj : pyval) (w : interp) :
  (fst (is_sympy_expession obj w) = Ret (VBool true) <->
   is_type obj (PatRe _SYMPY_RE) = Ret true
   /\ exists sympy, fst (import_sympy w) = Ret sympy
                    /\ isinstance_Expr sympy obj = Ret true)
  /\ (fst (is_sympy_expession obj w) = Ret (VBool true) ->
      exists sympy, sys_modules_sympy (snd (is_sympy_expession obj w)) = Some sympy
                    /\ isinstance_Expr sympy obj = Ret true).
Proof.
  unfold is_sympy_expession.
  destruct (is_type obj (PatRe _SYMPY_RE)) as [[|]|e]; cbn [fst snd].
  - assert (Hcache : forall m, fst (import_sympy w) = Ret m ->
                               sys_modules_sympy (snd (import_sympy w)) = Some m).
    { unfold import_sympy. intros m.
      destruct (sys_modules_sympy w) as [m'|] eqn:Hc; cbn [fst snd].
      - intros H. injection H as ->. exact Hc.
      - destruct (find_sympy w) as [m'|e]; cbn [fst snd]; intros H;
          [injection H as ->; reflexivity | discriminate H]. }
    destruct (import_sympy w) as [[sympy|e] w']; cbn [fst snd bind] in *.
    + specialize (Hcache sympy eq_refl).
      destruct (isinstance_Expr sympy obj) as [[|]|e] eqn:Hchk; cbn [fst snd].
      * split; [split; [eauto | reflexivity] | eauto].
      * split; [split|]; [intros H; discriminate H | | intros H; discriminate H].
        intros [_ [m [Hm Hc]]]. injection Hm as <-. congruence.
      * split; [split|]; [intros H; discriminate H | | intros H; discriminate H].
        intros [_ [m [Hm Hc]]]. injection Hm as <-. congruence.
    + split; [split|]; [intros H; discriminate H | | intros H; discriminate H].
      intros [_ [m [Hm _]]]. discriminate Hm.
  - split; [split|]; [intros H; discriminate H | | intros H; discriminate H].
    intros [H _]. discriminate H.
  - split; [split|]; [intros H; discriminate H | | intros H; discriminate H].
    intros [H _]. discriminate H.
Qed.

Lemma is_sympy_expession_true_iff_witness :
  fst (is_sympy_expession sympy_symbol w_fresh) = Ret (VBool true).
Proof.
  apply (proj2 (proj1 (is_sympy_expession_true_iff sympy_symbol w_fresh))).
  split; [reflexivity|]. exists sympy_lib. split; reflexivity.
Defined.

Lemma is_graphviz_chart_fqn (obj : pyval) (fqn : string) :
  actual_fqn obj = Ret fqn ->
  is_graphviz_chart obj = Ret (existsb (fun s => String.eqb s fqn) graphviz_fqns).
Proof.
  intros H. unfold is_graphviz_chart.
  rewrite !(is_type_str obj _ fqn H), !py_or_ret. simpl.
  rewrite orb_false_r. reflexivity.
Qed.

(** X4. [is_graphviz_chart] answers true exactly for the two names
    [graphviz.dot.Graph] and [graphviz.dot.Digraph], and false for every
    other name, the subclasses of the two classes included. *)
Theorem is_graphviz_chart_exact (obj : pyval) :
  (is_graphviz_chart obj = Ret true <->
   exists fqn, actual_fqn obj = Ret fqn /\ In fqn graphviz_fqns)
  /\ (forall fqn, actual_fqn obj = Ret fqn -> ~ In fqn graphviz_fqns ->
      is_graphviz_chart obj = Ret false).
Proof.
  split; [split|].
  - intros H. destruct (actual_fqn obj) as [fqn|e] eqn:E.
    + exists fqn. split; [reflexivity|].
      rewrite (is_graphviz_chart_fqn obj fqn E) in H. injection H as H.
      apply existsb_eqb_In. exact H.
    + unfold is_graphviz_chart, is_type in H. rewrite E in H. discriminate H.
  - intros [fqn [E Hin]]. rewrite (is_graphviz_chart_fqn obj fqn E).
    f_equal. apply existsb_eqb_In. exact Hin.
  - intros fqn E Hnot. rewrite (is_graphviz_chart_fqn obj fqn E). f_equal.
    destruct (existsb (fun s => String.eqb s fqn) graphviz_fqns) eqn:Ex;
      [|reflexivity].
    apply existsb_eqb_In in Ex. contradiction.
Qed.

Lemma is_graphviz_chart_exact_witness :
  is_graphviz_chart (VInstance (plain_class 52 "graphviz.dot" "Digraph") LObject)
  = Ret true
  /\ is_graphviz_chart
       (VInstance (MkClass 53 (Some (MVStr "myapp.graphs")) "Tree"
                           [TClass (plain_class 52 "graphviz.dot" "Digraph")] [])
                  LObject)
     = Ret false.
Proof.
  split.
  - apply (proj1 (is_graphviz_chart_exact _)).
    exists "graphviz.dot.Digraph". split; [reflexivity | simpl; auto].
  - apply (proj2 (is_graphviz_chart_exact _) "myapp.graphs.Tree");
      [reflexivity|].
    simpl. intros [H|[H|[]]]; discriminate H.
Defined.

(** ** Further properties of the plotly check *)

Lemma py_all_true_inv {A : Type} (f : A -> res bool) (l : list A) :
  py_all f l = Ret true -> forall x, In x l -> f x = Ret true.
Proof.
  induction l as [|y l IH]; simpl; intros H x Hx; [contradiction|].
  destruct (f y) as [[|]|e] eqn:Hy; simpl in H; try discriminate H.
  destruct Hx as [<-|Hx]; [exact Hy | apply IH; assumption].
Qed.

Lemma py_any_true_inv {A : Type} (f : A -> res bool) (l : list A) :
  py_any f l = Ret true -> exists x, In x l /\ f x = Ret true.
Proof.
  induction l as [|y l IH]; simpl; intros H; [discriminate H|].
  destruct (f y) as [[|]|e] eqn:Hy; simpl in H; try discriminate H.
  - exists y. auto.
  - destruct (IH H) as [x [Hx Hfx]]. exists x. auto.
Qed.

Lemma _is_plotly_obj_true (v : pyval) :
  _is_plotly_obj v = Ret true <-> is_plotly_ns v = true.
Proof.
  unfold _is_plotly_obj, is_plotly_ns.
  destruct (get_module (type_of v)) as [[s|]|e]; simpl; split; intros H;
    try discriminate H; congruence.
Qed.

Lemma list_branch_true_inv (v : pyval) :
  _is_list_of_plotly_objs v = Ret true -> is_plotly_list v = true.
Proof.
  intros H. destruct (type_is (type_of v) (TBuiltin BList)) eqn:Hty.
  - destruct (type_is_list_inv v Hty) as [l ->].
    unfold _is_list_of_plotly_objs in H. simpl in H. simpl.
    destruct (length l =? 0); [discriminate H|]. simpl in H. simpl.
    apply forallb_forall. intros x Hx. apply _is_plotly_obj_true.
    apply (py_all_true_inv _ l H x Hx).
  - rewrite (list_branch_not_list v Hty) in H. discriminate H.
Qed.

Lemma dict_branch_true_inv (obj : pyval) :
  _is_probably_plotly_dict obj = Ret true ->
  exists d, obj = VDict d
            /\ d <> []
            /\ forallb (fun k => py_in_strs k plotly_keys) (map fst d) = true
            /\ existsb qualifies (map snd d) = true.
Proof.
  intros H. destruct (type_in (type_of obj) dict_types) eqn:Hty.
  - destruct (type_in_dict_inv obj Hty) as [d ->]. exists d.
    split; [reflexivity|].
    unfold _is_probably_plotly_dict in H.
    change (type_in (type_of (VDict d)) dict_types) with true in H.
    cbn [negb bind dict_keys dict_values] in H.
    rewrite length_map, existsb_negb in H.
    destruct d as [|kv d]; [discriminate H|]. split; [discriminate|].
    cbn [length Nat.eqb] in H.
    destruct (forallb (fun k => py_in_strs k plotly_keys) (map fst (kv :: d)));
      [|discriminate H].
    split; [reflexivity|]. cbn [negb] in H.
    unfold qualifies. rewrite existsb_orb. apply orb_true_iff.
    destruct (py_any _is_plotly_obj (map snd (kv :: d))) as [[|]|e] eqn:Hany;
      cbn [bind] in H; try discriminate H.
    + left. destruct (py_any_true_inv _ _ Hany) as [v [Hin Hv]].
      apply existsb_exists. exists v. split; [exact Hin|].
      apply _is_plotly_obj_true. exact Hv.
    + right.
      destruct (py_any _is_list_of_plotly_objs (map snd (kv :: d)))
        as [[|]|e] eqn:Hany2; cbn [bind] in H; try discriminate H.
      destruct (py_any_true_inv _ _ Hany2) as [v [Hin Hv]].
      apply existsb_exists. exists v. split; [exact Hin|].
      apply list_branch_true_inv. exact Hv.
  - rewrite (dict_branch_not_dict obj Hty) in H. discriminate H.
Qed.

(** X5. [is_plotly_chart] answers true only for three kinds of object:
    one whose type is named [plotly.graph_objs._figure.Figure]; a
    non-empty list (of the built-in type) whose elements are all
    plotly-namespaced; a non-empty dict (of the built-in type) with keys
    among the four allowed and a value that is plotly-namespaced or is a
    non-empty list of plotly-namespaced objects. *)
Theorem is_plotly_chart_sound (obj : pyval) :
  is_plotly_chart obj = Ret true ->
  actual_fqn obj = Ret FIGURE
  \/ (exists l, obj = VList l /\ l <> [] /\ forallb is_plotly_ns l = true)
  \/ (exists d, obj = VDict d
                /\ d <> []
                /\ forallb (fun k => py_in_strs k plotly_keys) (map fst d) = true
                /\ existsb qualifies (map snd d) = true).
Proof.
  unfold is_plotly_chart. intros H.
  destruct (is_type obj (PatStr "plotly.graph_objs._figure.Figure"))
    as [[|]|e] eqn:Hfig; try discriminate H.
  - left. apply is_type_literal_exact in Hfig.
    apply actual_fqn_ret. destruct Hfig as [m [Hm Hp]].
    exists m. split; [exact Hm | exact Hp].
  - rewrite py_or_false_l in H.
    destruct (_is_list_of_plotly_objs obj) as [[|]|e] eqn:Hl;
      try discriminate H.
    + right. left. apply list_branch_true_inv in Hl.
      destruct obj; try discriminate Hl. simpl in Hl.
      apply andb_true_iff in Hl. destruct Hl as [Hlen Hall].
      eexists. split; [reflexivity|]. split; [|exact Hall].
      intros ->. discriminate Hlen.
    + right. right. rewrite py_or_false_l in H.
      apply dict_branch_true_inv. exact H.
Qed.

Lemma is_plotly_chart_sound_witness :
  actual_fqn (VList [scatter]) = Ret FIGURE
  \/ (exists l, VList [scatter] = VList l /\ l <> []
                /\ forallb is_plotly_ns l = true)
  \/ (exists d, VList [scatter] = VDict d
                /\ d <> []
                /\ forallb (fun k => py_in_strs k plotly_keys) (map fst d) = true
                /\ existsb qualifies (map snd d) = true).
Proof. apply (is_plotly_chart_sound (VList [scatter])). reflexivity. Defined.

(** X6. A non-empty list, of the built-in list type, whose elements are
    all plotly-namespaced is a plotly chart. *)
Theorem is_plotly_chart_list_accepts (l : list pyval) :
  l <> [] ->
  forallb is_plotly_ns l = true ->
  _is_list_of_plotly_objs (VList l) = Ret true
  /\ is_plotly_chart (VList l) = Ret true.
Proof.
  intros Hne Hall.
  assert (E : _is_list_of_plotly_objs (VList l) = Ret true).
  { unfold _is_list_of_plotly_objs. simpl.
    destruct l as [|x l]; [contradiction Hne; reflexivity|].
    cbn [length Nat.eqb bind].
    rewrite (py_all_pure _is_plotly_obj (fun _ => true)); [|].
    - f_equal. apply forallb_forall. reflexivity.
    - intros y Hy. apply _is_plotly_obj_true.
      rewrite forallb_forall in Hall. auto. }
  split; [exact E|].
  rewrite (is_plotly_chart_not_figure (VList l) eq_refl), E. reflexivity.
Qed.

Lemma is_plotly_chart_list_accepts_witness :
  _is_list_of_plotly_objs (VList [scatter; scatter]) = Ret true
  /\ is_plotly_chart (VList [scatter; scatter]) = Ret true.
Proof.
  apply (is_plotly_chart_list_accepts [scatter; scatter]);
    [discriminate | reflexivity].
Defined.



(** X8. On a dict, of the built-in dict type, whose values and the
    elements of whose list values all have types with a string
    [__module__], [is_plotly_chart] computes exactly this: the dict is not
    empty, its keys are among the four allowed and one of its values is
    plotly-namespaced or is a non-empty list of plotly-namespaced
    objects.  A dict with allowed keys but no such value is rejected. *)
Theorem is_plotly_chart_dict_exact (d : list (pyval * pyval)) :
  forallb module_is_str (inspected (VDict d)) = true ->
  is_plotly_chart (VDict d)
  = Ret (negb (length d =? 0)
         && forallb (fun k => py_in_strs k plotly_keys) (map fst d)
         && existsb qualifies (map snd d)).
Proof.
  intros Hstr.
  rewrite (is_plotly_chart_not_figure (VDict d) eq_refl).
  rewrite (list_branch_not_list (VDict d) eq_refl), py_or_false_l.
  apply dict_branch_str. exact Hstr.
Qed.

Lemma is_plotly_chart_dict_exact_witness :
  is_plotly_chart (VDict [(VStr "data", VList [VInt 1; VInt 2]);
                          (VStr "layout", VDict [(VStr "title", VStr "t")])])
  = Ret false.
Proof.
  apply (is_plotly_chart_dict_exact
           [(VStr "data", VList [VInt 1; VInt 2]);
            (VStr "layout", VDict [(VStr "title", VStr "t")])]).
  reflexivity.
Defined.

(** ** Further properties of the named-tuple check *)

Lemma type_is_tuple_inv (t : pytype) :
  type_is t (TBuiltin BTuple) = true -> t = TBuiltin BTuple.
Proof.
  destruct t as [b|c]; simpl; intros H; [|discriminate H].
  destruct b; try discriminate H. reflexivity.
Qed.

Lemma is_namedtuple_bases (x : pyval) :
  get_bases (type_of x) <> [TBuiltin BTuple] -> is_namedtuple x = Ret false.
Proof.
  intros Hb. unfold is_namedtuple.
  destruct (get_bases (type_of x)) as [|b0 [|b1 bs]]; try reflexivity.
  cbn [length Nat.eqb negb orb].
  destruct (type_is b0 (TBuiltin BTuple)) eqn:Hty; [|reflexivity].
  apply type_is_tuple_inv in Hty. subst b0. contradiction Hb. reflexivity.
Qed.

(** X9. [is_namedtuple] answers true exactly for the instances of a
    class whose only direct base is [tuple] and whose [_fields] attribute
    is a tuple of objects of types named [str]. *)
Theorem is_namedtuple_true_iff (x : pyval) :
  is_namedtuple x = Ret true <->
  exists c lay f items,
    x = VInstance c lay
    /\ cls_bases c = [TBuiltin BTuple]
    /\ assoc_str "_fields" (cls_attrs c) = Some f
    /\ tuple_items f = Some items
    /\ forallb named_str items = true.
Proof.
  split.
  - intros H.
    assert (Hb : get_bases (type_of x) = [TBuiltin BTuple]).
    { destruct (get_bases (type_of x)) as [|b0 [|b1 bs]] eqn:Hb;
        try (rewrite (is_namedtuple_bases x) in H;
             [discriminate H | rewrite Hb; discriminate]).
      destruct (type_is b0 (TBuiltin BTuple)) eqn:Hty.
      - apply type_is_tuple_inv in Hty. subst b0. reflexivity.
      - rewrite (is_namedtuple_bases x) in H; [discriminate H|].
        rewrite Hb. intros E. injection E as ->. discriminate Hty. }
    destruct x as [| | | | | | | |c lay]; try discriminate Hb.
    simpl in Hb. exists c, lay.
    unfold is_namedtuple, getattr_default in H. simpl in H. rewrite Hb in H.
    cbn [length Nat.eqb negb orb type_is builtin_eqb] in H.
    destruct (assoc_str "_fields" (cls_attrs c)) as [f|] eqn:Hf;
      [|discriminate H].
    exists f.
    destruct (isinstance_tuple f) eqn:Hi; [|discriminate H].
    destruct (isinstance_tuple_items f Hi) as [items Hitems].
    exists items. repeat (split; [assumption || reflexivity|]).
    destruct (tuple_items_iter f items Hitems) as [_ Hiter].
    rewrite Hiter in H. cbn [negb bind] in H.
    rewrite (py_all_pure (fun n => Ret (String.eqb (get_name (type_of n)) "str"))
                         named_str items (fun _ _ => eq_refl)) in H.
    injection H as H. exact H.
  - intros [c [lay [f [items [-> [Hb [Hf [Hitems Hall]]]]]]]].
    unfold is_namedtuple, getattr_default. simpl. rewrite Hb, Hf.
    destruct (tuple_items_iter f items Hitems) as [-> ->].
    cbn [length Nat.eqb negb orb type_is builtin_eqb bind].
    rewrite (py_all_pure (fun n => Ret (String.eqb (get_name (type_of n)) "str"))
                         named_str items (fun _ _ => eq_refl)), Hall.
    reflexivity.
Qed.

Lemma is_namedtuple_true_iff_witness :
  is_namedtuple (point 45 (VTuple [VStr "x"; VStr "y"])) = Ret true.
Proof.
  apply (proj2 (is_namedtuple_true_iff _)).
  exists (point_class 45 (VTuple [VStr "x"; VStr "y"])),
         (LTuple [VInt 1; VInt 2]), (VTuple [VStr "x"; VStr "y"]),
         [VStr "x"; VStr "y"].
  repeat split.
Defined.

(** X10. [is_namedtuple] answers false, without raising, for every
    object whose type does not have [tuple] as its one direct base: the
    values of the built-in types (plain tuples, lists, dicts, strings,
    functions) and the instances of a class that derives from a record
    type rather than from [tuple] itself.  It also answers false when the
    type derives from [tuple] alone but has no [_fields]. *)
Theorem is_namedtuple_rejects (x : pyval) :
  (get_bases (type_of x) <> [TBuiltin BTuple] -> is_namedtuple x = Ret false)
  /\ (forall b, type_of x = TBuiltin b -> is_namedtuple x = Ret false)
  /\ (forall c, type_of x = TClass c ->
                assoc_str "_fields" (cls_attrs c) = None ->
                is_namedtuple x = Ret false).
Proof.
  split; [apply is_namedtuple_bases|]. split.
  - intros b Hb. apply is_namedtuple_bases. rewrite Hb.
    destruct b; discriminate.
  - intros c Hc Hf. unfold is_namedtuple, getattr_default. rewrite Hc.
    cbn [get_bases]. rewrite Hf. cbn [isinstance_tuple negb].
    destruct (negb (length (cls_bases c) =? 1)
              || negb match cls_bases c with
                      | [] => false
                      | b0 :: _ => type_is b0 (TBuiltin BTuple)
                      end); reflexivity.
Qed.

Lemma is_namedtuple_rejects_witness :
  is_namedtuple point3 = Ret false
  /\ is_namedtuple (VTuple [VInt 1; VInt 2]) = Ret false
  /\ is_namedtuple (VInstance pair_class (LTuple [VInt 1; VInt 2])) = Ret false.
Proof.
  split; [|split].
  - apply (proj1 (is_namedtuple_rejects point3)). discriminate.
  - apply (proj1 (proj2 (is_namedtuple_rejects (VTuple [VInt 1; VInt 2])))
             BTuple eq_refl).
  - apply (proj2 (proj2 (is_namedtuple_rejects
                           (VInstance pair_class (LTuple [VInt 1; VInt 2]))))
             pair_class eq_refl eq_refl).
Defined.

(** ** The predicates against one another *)

Lemma prefix_shape (p : string) :
  forall s, String.prefix p s = true -> exists t, s = (p ++ t)%string.
Proof.
  induction p as [|a p IH]; intros s H.
  - exists s. reflexivity.
  - destruct s as [|b s]; simpl in H; [discriminate H|].
    destruct (ascii_dec a b) as [->|_]; [|discriminate H].
    destruct (IH s H) as [t ->]. exists t. reflexivity.
Qed.

Lemma as_value_true (r : res bool) :
  as_value r = Ret (VBool true) -> r = Ret true.
Proof.
  destruct r as [[|]|e]; simpl; intros H; [reflexivity | discriminate H..].
Qed.

(** A predicate that answers true has read a name of its family. *)
Lemma call_true_family (p : predicate) (obj : pyval) (w : interp) :
  p <> IsNamedTuple ->
  fst (call p obj w) = Ret (VBool true) ->
  exists fqn, actual_fqn obj = Ret fqn /\ family p fqn = true.
Proof.
  intros Hp H. destruct p; cbn [call fst family] in *.
  - assert (Hpre : is_type obj (PatRe _SYMPY_RE) = Ret true).
    { unfold is_sympy_expession in H.
      destruct (is_type obj (PatRe _SYMPY_RE)) as [[|]|e];
        [reflexivity | discriminate H | discriminate H]. }
    apply is_type_re_true in Hpre. destruct Hpre as [fqn [Hfqn Hre]].
    exists fqn. split; [exact Hfqn | apply sympy_re_prefix; exact Hre].
  - apply as_value_true in H. unfold is_altair_chart in H.
    apply is_type_re_true in H. destruct H as [fqn [Hfqn Hre]].
    exists fqn. split; [exact Hfqn|].
    apply altair_re_iff in Hre. destruct Hre as [ds [ws [nl [-> _]]]].
    apply prefix_app.
  - apply as_value_true in H.
    destruct (actual_fqn obj) as [fqn|e] eqn:E.
    + exists fqn. rewrite (is_keras_model_fqn obj fqn E) in H.
      injection H as H. auto.
    + unfold is_keras_model, is_type in H. rewrite E in H. discriminate H.
  - apply as_value_true in H. unfold is_plotly_chart in H.
    destruct (is_type obj (PatStr "plotly.graph_objs._figure.Figure"))
      as [[|]|e] eqn:Hfig; try discriminate H.
    + destruct (is_type_ret_inv obj _ _ Hfig) as [fqn Hfqn].
      exists fqn. split; [exact Hfqn|].
      rewrite (is_type_str obj _ fqn Hfqn) in Hfig.
      assert (E : "plotly.graph_objs._figure.Figure" = fqn)
        by (apply String.eqb_eq; congruence).
      rewrite <- E. reflexivity.
    + rewrite py_or_false_l in H.
      destruct (_is_list_of_plotly_objs obj) as [[|]|e] eqn:Hl;
        try discriminate H.
      * apply list_branch_true_inv in Hl. destruct obj; try discriminate Hl.
        exists "builtins.list". split; reflexivity.
      * rewrite py_or_false_l in H. apply dict_branch_true_inv in H.
        destruct H as [d [-> _]]. exists "builtins.dict". split; reflexivity.
  - apply as_value_true in H.
    destruct (actual_fqn obj) as [fqn|e] eqn:E.
    + exists fqn. rewrite (is_graphviz_chart_fqn obj fqn E) in H.
      injection H as H. auto.
    + unfold is_graphviz_chart, is_type in H. rewrite E in H. discriminate H.
  - apply as_value_true in H. unfold is_function in H. injection H as H.
    destruct obj; try discriminate H.
    exists "builtins.function". split; reflexivity.
  - contradiction Hp. reflexivity.
Qed.

Ltac family_shape H :=
  match type of H with
  | (_ || _) = true =>
      apply orb_true_iff in H; destruct H as [H|H]; family_shape H
  | String.eqb _ _ = true => apply String.eqb_eq in H; subst
  | String.prefix _ _ = true =>
      apply prefix_shape in H; destruct H as [? ->]
  | false = true => discriminate H
  end.

(** The families of two different predicates have no name in common. *)
Lemma family_disjoint (p q : predicate) (fqn : string) :
  p <> q -> p <> IsNamedTuple -> q <> IsNamedTuple ->
  family p fqn = true -> family q fqn = true -> False.
Proof.
  intros Hpq Hp Hq Fp Fq.
  destruct p; try (contradiction Hp; reflexivity);
    destruct q; try (contradiction Hq; reflexivity);
    try (contradiction Hpq; reflexivity);
    cbn [family keras_fqns graphviz_fqns existsb] in Fp;
    family_shape Fp; cbv in Fq; discriminate Fq.
Qed.

(** X11. Apart from the named-tuple check, the predicates exclude one
    another: when one of them answers true for an object, none of the
    others does, in whatever interpreter state it is called.  The order
    in which a caller tries them therefore does not matter. *)
Theorem predicates_exclusive (p q : predicate) (obj : pyval) (w w' : interp) :
  p <> q -> p <> IsNamedTuple -> q <> IsNamedTuple ->
  fst (call p obj w) = Ret (VBool true) ->
  fst (call q obj w') <> Ret (VBool true).
Proof.
  intros Hpq Hp Hq Hpt Hqt.
  destruct (call_true_family p obj w Hp Hpt) as [fqn [Hfqn Fp]].
  destruct (call_true_family q obj w' Hq Hqt) as [fqn' [Hfqn' Fq]].
  rewrite Hfqn in Hfqn'. injection Hfqn' as <-.
  exact (family_disjoint p q fqn Hpq Hp Hq Fp Fq).
Qed.

Lemma predicates_exclusive_witness :
  fst (call IsSympyExpression (VList [scatter]) w_fresh) <> Ret (VBool true)
  /\ fst (call IsKerasModel (VList [scatter]) w_fresh) <> Ret (VBool true).
Proof.
  split.
  - apply (predicates_exclusive IsPlotlyChart IsSympyExpression
             (VList [scatter]) w_loaded w_fresh);
      [discriminate | discriminate | discriminate | reflexivity].
  - apply (predicates_exclusive IsPlotlyChart IsKerasModel
             (VList [scatter]) w_loaded w_fresh);
      [discriminate | discriminate | discriminate | reflexivity].
Defined.

Lemma has_module_false (obj : pyval) :
  has_module obj = false ->
  actual_fqn obj = Raise (AttributeError "__module__").
Proof.
  unfold has_module, actual_fqn.
  destruct obj as [| | | | | | | |c lay]; simpl; try (intros H; discriminate H).
  destruct (cls_module c); [intros H; discriminate H | reflexivity].
Qed.

(** X12. When the type of the object has no [__module__] attribute,
    each of the five predicates that read the fully-qualified name
    raises [AttributeError] for [__module__], and the sympy one does so
    before any import.  For the four of them that look at nothing but
    the name, this is the only way to raise. *)
Theorem predicates_no_module (p : predicate) (obj : pyval) (w : interp) :
  reads_fqn p = true ->
  (has_module obj = false ->
   call p obj w = (Raise (AttributeError "__module__"), w))
  /\ (p <> IsPlotlyChart ->
      forall e, fst (call p obj w) = Raise e -> has_module obj = false).
Proof.
  intros Hp. split.
  - intros Hm. apply has_module_false in Hm.
    assert (Hty : forall pat, is_type obj pat = Raise (AttributeError "__module__")).
    { intros pat. unfold is_type. rewrite Hm. reflexivity. }
    destruct p; try discriminate Hp; cbn [call].
    + unfold is_sympy_expession. rewrite Hty. reflexivity.
    + unfold is_altair_chart. rewrite Hty. reflexivity.
    + unfold is_keras_model. rewrite !Hty. reflexivity.
    + unfold is_plotly_chart. rewrite Hty. reflexivity.
    + unfold is_graphviz_chart. rewrite !Hty. reflexivity.
  - intros Hnp e He.
    destruct (has_module obj) eqn:Hm; [exfalso | reflexivity].
    destruct (has_module_fqn obj Hm) as [fqn Hfqn].
    destruct p; try discriminate Hp; cbn [call fst] in He.
    + destruct (is_sympy_expession_returns obj w Hm) as [v [Hv _]].
      rewrite Hv in He. discriminate He.
    + unfold is_altair_chart in He. rewrite (is_type_re obj _ fqn Hfqn) in He.
      discriminate He.
    + rewrite (is_keras_model_fqn obj fqn Hfqn) in He. discriminate He.
    + contradiction Hnp. reflexivity.
    + rewrite (is_graphviz_chart_fqn obj fqn Hfqn) in He. discriminate He.
Qed.

Lemma predicates_no_module_witness :
  call IsSympyExpression bare w_fresh
  = (Raise (AttributeError "__module__"), w_fresh)
  /\ call IsPlotlyChart bare w_fresh
     = (Raise (AttributeError "__module__"), w_fresh).
Proof.
  split.
  - apply (proj1 (predicates_no_module IsSympyExpression bare w_fresh eq_refl)).
    reflexivity.
  - apply (proj1 (predicates_no_module IsPlotlyChart bare w_fresh eq_refl)).
    reflexivity.
Defined.

(** ** The order in which a dict's values are looked at *)

Lemma any_plotly_obj_first_hit (pre rest : list pyval) (v : pyval) :
  forallb module_is_str pre = true ->
  is_plotly_ns v = true ->
  py_any _is_plotly_obj (pre ++ v :: rest) = Ret true.
Proof.
  intros Hpre Hv. induction pre as [|y pre IH]; cbn [app py_any].
  - apply _is_plotly_obj_true in Hv. rewrite Hv. reflexivity.
  - simpl in Hpre. apply andb_true_iff in Hpre. destruct Hpre as [Hy Hpre].
    rewrite (_is_plotly_obj_str y Hy). cbn [bind].
    destruct (is_plotly_ns y); [reflexivity | apply IH; exact Hpre].
Qed.

(** X13. The values of a dict are looked at in the dict's order, and the
    first plotly-namespaced value settles the answer: a non-empty dict
    with allowed keys is accepted as soon as such a value is met, if the
    values before it have types with a string [__module__]; whatever
    comes after it, even an object whose [__module__] is not a string, is
    never looked at. *)
Theorem is_plotly_chart_dict_first_hit
        (d : list (pyval * pyval)) (pre rest : list pyval) (v : pyval) :
  forallb (fun k => py_in_strs k plotly_keys) (map fst d) = true ->
  map snd d = pre ++ v :: rest ->
  forallb module_is_str pre = true ->
  is_plotly_ns v = true ->
  is_plotly_chart (VDict d) = Ret true.
Proof.
  intros Hkeys Hvals Hpre Hv.
  rewrite (is_plotly_chart_not_figure (VDict d) eq_refl).
  rewrite (list_branch_not_list (VDict d) eq_refl), py_or_false_l.
  unfold _is_probably_plotly_dict.
  change (type_in (type_of (VDict d)) dict_types) with true.
  cbn [negb bind dict_keys dict_values].
  rewrite length_map, existsb_negb, Hkeys, Hvals.
  destruct d as [|kv d]; [destruct pre; discriminate Hvals|].
  cbn [length Nat.eqb negb].
  rewrite (any_plotly_obj_first_hit pre rest v Hpre Hv). reflexivity.
Qed.

Lemma is_plotly_chart_dict_first_hit_witness :
  is_plotly_chart (VDict [(VStr "layout", VInt 1); (VStr "data", scatter);
                          (VStr "config", odd)]) = Ret true.
Proof.
  apply (is_plotly_chart_dict_first_hit
           [(VStr "layout", VInt 1); (VStr "data", scatter); (VStr "config", odd)]
           [VInt 1] [odd] scatter); reflexivity.
Defined.

(** ** Which calls return, and which raise *)

Lemma list_scan_offender_raises (pre rest : list pyval) (x : pyval) :
  forallb is_plotly_ns pre = true ->
  module_is_str x = false ->
  exists attr,
    _is_list_of_plotly_objs (VList (pre ++ x :: rest))
    = Raise (AttributeError attr).
Proof.
  intros Hpre Hx.
  assert (Hraise : exists attr, _is_plotly_obj x = Raise (AttributeError attr)).
  { unfold module_is_str in Hx. unfold _is_plotly_obj.
    destruct (get_module (type_of x)) as [[s|]|e] eqn:Hm; try discriminate Hx.
    - exists "startswith". reflexivity.
    - destruct x as [| | | | | | | |c lay]; try discriminate Hm.
      simpl in Hm. destruct (cls_module c); [discriminate Hm|].
      injection Hm as <-. exists "__module__". reflexivity. }
  destruct Hraise as [attr Hraise]. exists attr.
  unfold _is_list_of_plotly_objs.
  change (type_is (type_of (VList (pre ++ x :: rest))) (TBuiltin BList))
    with true.
  cbn [negb py_len py_iter bind].
  replace (length (pre ++ x :: rest) =? 0) with false
    by (destruct pre; reflexivity).
  induction pre as [|y pre IH]; cbn [app py_all].
  - rewrite Hraise. reflexivity.
  - simpl in Hpre. apply andb_true_iff in Hpre. destruct Hpre as [Hy Hpre].
    apply _is_plotly_obj_true in Hy. rewrite Hy. cbn [bind].
    apply IH. exact Hpre.
Qed.


